(** * Speech emotion recognition: the Week-5 inference pipeline

    A shallow embedding of [emotion_predictor.py], [live_emotion_detector.py]
    and [demo_script.py], and the properties of the feature-extraction and
    prediction pipeline proved about it.

    Conventions of the embedding.
    - A Python call that may raise returns a [result]; [try]/[except] is a
      match on it.  Every exception class that occurs is a subclass of
      Python's [Exception]; the user's interrupt is modelled where the live
      loop waits for it, as the end of the microphone stream.
    - librosa, numpy's reductions, joblib, sounddevice and the file system are
      external: they are the fields of a [World].  Only their shapes are ever
      assumed ([LibrosaShapes]), never their numeric values.
    - An audio sample and a feature scalar are binary64 floats ([float]); a
      float32 sample is a binary64 value, and no arithmetic is done on
      scalars by the code itself besides [abs], [max] and [<].
    - A Python [dict] is a [gmap]; a numpy array is a [list], a 2-D array a
      list of rows.
    - Console output is modelled where a driver's behaviour is its output
      (the batch driver, the live loop, the demo): the lines the driver
      itself prints, and one event per call of a display routine, whose
      lines are those of [display_result] and [print_prediction_result];
      banners are left out, and so are the emoji of the messages. *)

From Stdlib Require Import ZArith Ascii String PrimFloat FloatOps FloatAxioms DecimalString.
From stdpp Require Import gmap strings list.

Open Scope Z_scope.

(** ** The Python runtime the code relies on *)

Module Py.

(** The exception classes that the three files raise, catch or let through. *)
Inductive exn_class : Type :=
| FileNotFoundError
| ValueError
| KeyError
| IndexError
| AttributeError
| EOFError
| Exception
| LibraryError (name : string).

(** An exception object: its class and [str(e)]. *)
Record exn : Type := Raise { class_of : exn_class; str : string }.

Inductive result (A : Type) : Type :=
| Ok (a : A)
| Err (e : exn).
Arguments Ok {A} a.
Arguments Err {A} e.

#[export] Instance result_ret : MRet result := fun A a => Ok a.
#[export] Instance result_bind : MBind result := fun A B f r =>
  match r with
  | Ok a => f a
  | Err e => Err e
  end.

#[export] Instance result_fmap : FMap result := fun A B f r =>
  match r with
  | Ok a => Ok (f a)
  | Err e => Err e
  end.

(** [try: body except Exception as e: handler e]. *)
Definition try_except {A : Type} (body : result A) (handler : exn -> result A)
  : result A :=
  match body with
  | Ok a => Ok a
  | Err e => handler e
  end.

(** The class of the exception a call raised, if it raised. *)
Definition raised_class {A : Type} (r : result A) : option exn_class :=
  match r with
  | Ok _ => None
  | Err e => Some (class_of e)
  end.

(** [str(n)] for a Python int. *)
Definition str_int (n : Z) : string := NilZero.string_of_int (Z.to_int n).

(** [repr(s)] for a plain string. *)
Definition repr_str (s : string) : string := "'" +:+ s +:+ "'".

(** [getattr(obj, name)] on an attribute the object may lack. *)
Definition getattr {A : Type} (name : string) (attr : option A) : result A :=
  match attr with
  | Some a => Ok a
  | None => Err (Raise AttributeError ("object has no attribute " +:+ repr_str name))
  end.

(** [a[i]] for a list or array and an index that is not negative. *)
Definition getitem {A : Type} (a : list A) (i : nat) : result A :=
  match a !! i with
  | Some x => Ok x
  | None => Err (Raise IndexError "index out of range")
  end.

(** [d[k]] for a dict: [KeyError(k)] when the key is missing. *)
Definition dict_getitem {K V : Type} `{Countable K} (repr : K -> string)
    (d : gmap K V) (k : K) : result V :=
  match d !! k with
  | Some v => Ok v
  | None => Err (Raise KeyError (repr k))
  end.

(** [a[:k]] for any integer [k] (a negative [k] counts from the end). *)
Definition slice_to {A : Type} (a : list A) (k : Z) : list A :=
  if k <? 0 then take (Z.to_nat (Z.of_nat (length a) + k)) a
  else take (Z.to_nat k) a.

End Py.
Export Py.

(** ** Arrays and the numpy operations the code itself performs *)

Module np.

Abbreviation array := (list float).
Abbreviation matrix := (list (list float)).

(** [np.abs], elementwise. *)
Definition abs (a : array) : array := map PrimFloat.abs a.

(** [np.maximum] on two scalars: a NaN wins. *)
Definition maximum (x y : float) : float :=
  if is_nan x then x
  else if is_nan y then y
  else if (x <? y)%float then y else x.

(** [np.max]: raises on an empty array. *)
Definition max (a : array) : result float :=
  match a with
  | [] => Err (Raise ValueError
            "zero-size array to reduction operation maximum which has no identity")
  | x :: rest => Ok (fold_left maximum rest x)
  end.

(** [np.zeros(n)]. *)
Definition zeros (n : nat) : array := repeat 0%float n.

(** [np.hstack] of 1-D arrays. *)
Definition hstack (parts : list array) : array := concat parts.

(** [a.reshape(1, -1)] of a 1-D array. *)
Definition reshape_row (a : array) : matrix := [a].

End np.

(** ** scikit-learn estimators, as duck-typed objects *)

Module sklearn.

(** What a pickled estimator exposes; an attribute it lacks is [None], and
    [hasattr] is [is_Some]. *)
Record Estimator : Type := {
  n_features_in_ : option Z;
  transform : option (np.matrix -> result np.matrix);
  predict : option (np.matrix -> result (list Z));
  predict_proba : option (np.matrix -> result np.matrix);
  classes_ : option (list Z)
}.

End sklearn.

(** ** The external world *)

Record World : Type := {
  os_path_exists : string -> bool;
  os_path_isfile : string -> bool;
  os_path_isdir : string -> bool;
  os_path_basename : string -> string;
  (** [glob.glob(os.path.join(directory, "*.wav"))] *)
  glob_wav : string -> list string;
  joblib_load : string -> result sklearn.Estimator;
  (** [librosa.load(path, sr=sr, mono=True, duration=duration)] *)
  librosa_load : string -> Z -> float -> result (np.array * Z);
  (** [librosa.feature.mfcc(y=y, sr=sr, n_mfcc=n)] *)
  librosa_feature_mfcc : np.array -> Z -> nat -> result np.matrix;
  (** [librosa.feature.delta(data, order=order)] *)
  librosa_feature_delta : np.matrix -> nat -> result np.matrix;
  librosa_feature_spectral_centroid : np.array -> Z -> result np.matrix;
  librosa_feature_spectral_rolloff : np.array -> Z -> result np.matrix;
  librosa_feature_zero_crossing_rate : np.array -> result np.matrix;
  (** [np.mean] and [np.std] of a flat array *)
  np_mean : np.array -> float;
  np_std : np.array -> float;
  (** [sorted(probabilities.items(), key=lambda x: x[1], reverse=True)]: among
      equal values the order is the dict's insertion order, which a [gmap]
      does not keep *)
  sorted_by_probability : gmap string float -> list (string * float)
}.

(** What the code takes for granted about librosa: [mfcc] returns [n_mfcc]
    rows and [delta] keeps the shape of its argument. *)
Record LibrosaShapes (w : World) : Prop := {
  mfcc_rows : forall y sr n m,
    librosa_feature_mfcc w y sr n = Ok m -> length m = n;
  delta_rows : forall m order d,
    librosa_feature_delta w m order = Ok d -> length d = length m
}.

(** [np.mean(m, axis=1)], [np.std(m, axis=1)] and [np.mean(m)]. *)
Definition mean_axis1 (w : World) (m : np.matrix) : np.array := map (np_mean w) m.
Definition std_axis1 (w : World) (m : np.matrix) : np.array := map (np_std w) m.
Definition mean_all (w : World) (m : np.matrix) : float := np_mean w (concat m).

(** The feature computation, from the MFCCs to the [np.hstack]: lines 108-144
    of [emotion_predictor.py] and, with [audio] for [y] and
    [self.sample_rate] for [sr], lines 86-122 of [live_emotion_detector.py]. *)
Definition compute_features (w : World) (y : np.array) (sr : Z) : result np.array :=
  mfcc ← librosa_feature_mfcc w y sr 13;
  delta_mfcc ← librosa_feature_delta w mfcc 1;
  delta2_mfcc ← librosa_feature_delta w mfcc 2;
  let mfcc_mean := mean_axis1 w mfcc in
  let mfcc_std := std_axis1 w mfcc in
  let delta_mean := mean_axis1 w delta_mfcc in
  let delta_std := std_axis1 w delta_mfcc in
  let delta2_mean := mean_axis1 w delta2_mfcc in
  let delta2_std := std_axis1 w delta2_mfcc in
  spectral_centroid ← mean_all w <$> librosa_feature_spectral_centroid w y sr;
  spectral_rolloff ← mean_all w <$> librosa_feature_spectral_rolloff w y sr;
  zero_crossing_rate ← mean_all w <$> librosa_feature_zero_crossing_rate w y;
  Ok (np.hstack [mfcc_mean; mfcc_std;
                 delta_mean; delta_std;
                 delta2_mean; delta2_std;
                 [spectral_centroid];
                 [spectral_rolloff];
                 [zero_crossing_rate]]).

(** ** emotion_predictor.py *)

Module emotion_predictor.

(** The state of an [EmotionPredictor] object. *)
Record EmotionPredictor : Type := {
  model : sklearn.Estimator;
  scaler : sklearn.Estimator;
  expected_features : Z;
  emotion_map : gmap Z string
}.

(** The RAVDESS emotion mapping set by the constructor. *)
Definition RAVDESS : gmap Z string :=
  list_to_map [(1, "Neutral"); (2, "Calm"); (3, "Happy"); (4, "Sad");
               (5, "Angry"); (6, "Fearful"); (7, "Disgust"); (8, "Surprised")]%string.

(** What one prediction returns: label, confidence, probabilities. *)
Definition prediction : Type := (string * option float * gmap string float)%type.

(** An entry of a batch result: a prediction, or [(None, None, {})]. *)
Definition batch_entry : Type := (option string * option float * gmap string float)%type.

Section WithWorld.
Context (w : World).

(** [EmotionPredictor.__init__(model_path, scaler_path)]. *)
Definition __init__ (model_path scaler_path : string) : result EmotionPredictor :=
  if negb (os_path_exists w model_path) then
    Err (Raise FileNotFoundError ("Model not found at " +:+ model_path))
  else if negb (os_path_exists w scaler_path) then
    Err (Raise FileNotFoundError ("Scaler not found at " +:+ scaler_path))
  else
    model ← joblib_load w model_path;
    scaler ← joblib_load w scaler_path;
    expected_features ← getattr "n_features_in_" (sklearn.n_features_in_ scaler);
    Ok {| model := model;
          scaler := scaler;
          expected_features := expected_features;
          emotion_map := RAVDESS |}.

(** Lines 147-162 of [extract_features]: the check of the feature count
    and the two paddings. *)
Definition fix_feature_count (self : EmotionPredictor) (features : np.array)
  : result np.array :=
  let len := Z.of_nat (length features) in
  if negb (len =? expected_features self) then
    if (len =? 81) && (expected_features self =? 82) then
      Ok (np.hstack [features; [0%float]])
    else if (len =? 81) && (expected_features self =? 83) then
      Ok (np.hstack [features; np.zeros 2])
    else
      Err (Raise ValueError
             ("Feature dimension mismatch: expected "
                +:+ str_int (expected_features self)
                +:+ ", got " +:+ str_int len))
  else Ok features.

(** [EmotionPredictor.extract_features(audio_path, sr, duration)]. *)
Definition extract_features (self : EmotionPredictor) (audio_path : string)
    (sr : Z) (duration : float) : result np.array :=
  if negb (os_path_exists w audio_path) then
    Err (Raise FileNotFoundError ("Audio file not found: " +:+ audio_path))
  else
    try_except
      ('(y, sr) ← librosa_load w audio_path sr duration;
       features ← compute_features w y sr;
       fix_feature_count self features)
      (fun e => Err (Raise Exception ("Feature extraction failed: " +:+ str e))).

(** The loop of lines 209-212: [for idx, prob in enumerate(probs)]. *)
Fixpoint map_probabilities (model : sklearn.Estimator) (emotion_map : gmap Z string)
    (idx : nat) (probs : np.array) (probabilities : gmap string float)
  : result (gmap string float) :=
  match probs with
  | [] => Ok probabilities
  | prob :: rest =>
      classes ← getattr "classes_" (sklearn.classes_ model);
      emotion_id_mapped ← getitem classes idx;
      emotion_name ← dict_getitem str_int emotion_map emotion_id_mapped;
      map_probabilities model emotion_map (S idx) rest
        (<[emotion_name := prob]> probabilities)
  end.

(** Lines 192-216 of [predict], from the reshape on; lines 138-160 of
    [LiveEmotionDetector.predict_from_audio] are the same statements on
    [self.predictor]. *)
Definition classify (self : EmotionPredictor) (features : np.array) : result prediction :=
  let features := np.reshape_row features in
  scaler_transform ← getattr "transform" (sklearn.transform (scaler self));
  features_scaled ← scaler_transform features;
  model_predict ← getattr "predict" (sklearn.predict (model self));
  emotion_id ← model_predict features_scaled ≫= (fun ids => getitem ids 0);
  emotion_label ← dict_getitem str_int (emotion_map self) emotion_id;
  match sklearn.predict_proba (model self) with
  | Some model_predict_proba =>
      probs ← model_predict_proba features_scaled ≫= (fun rows => getitem rows 0);
      probabilities ← map_probabilities (model self) (emotion_map self) 0 probs ∅;
      confidence ← dict_getitem repr_str probabilities emotion_label;
      Ok (emotion_label, Some confidence, probabilities)
  | None => Ok (emotion_label, None, ∅)
  end.

(** [EmotionPredictor.predict(audio_path)]. *)
Definition predict (self : EmotionPredictor) (audio_path : string) : result prediction :=
  features ← extract_features self audio_path 22050 3%float;
  classify self features.

(** The tuple [(None, None, {})] recorded for a failed item. *)
Definition failure_marker : batch_entry := (None, None, ∅).

Definition as_entry (r : prediction) : batch_entry :=
  let '(emotion, confidence, probabilities) := r in
  (Some emotion, confidence, probabilities).

(** The loop of [predict_batch]: [results] is threaded, and with it
    [error_lines], the lines written by the loop's own [print] (line 237).  What
    [extract_features] prints before it raises on a dimension mismatch (lines
    159-161) is not part of it. *)
Fixpoint predict_batch_loop (self : EmotionPredictor) (audio_paths : list string)
    (results : list batch_entry) (error_lines : list string)
  : list batch_entry * list string :=
  match audio_paths with
  | [] => (results, error_lines)
  | path :: rest =>
      match predict self path with
      | Ok result => predict_batch_loop self rest (results ++ [as_entry result]) error_lines
      | Err e =>
          predict_batch_loop self rest
            (results ++ [failure_marker])
            (error_lines ++ ["Error processing " +:+ path +:+ ": " +:+ str e])
      end
  end.

(** [EmotionPredictor.predict_batch(audio_paths)]: the list returned and the
    error lines the method printed. *)
Definition predict_batch (self : EmotionPredictor) (audio_paths : list string)
  : list batch_entry * list string :=
  predict_batch_loop self audio_paths [] [].

End WithWorld.

End emotion_predictor.

(** ** The display routines *)

(** [int(x)] for a float: truncation towards zero; NaN and the infinities
    raise. *)
Definition int_of_float (x : float) : result Z :=
  match Prim2SF x with
  | SpecFloat.S754_zero _ => Ok 0
  | SpecFloat.S754_finite s m e =>
      let magnitude := if 0 <=? e then Z.pos m * 2 ^ e else Z.pos m / 2 ^ (- e) in
      Ok (if s then - magnitude else magnitude)
  | SpecFloat.S754_infinity _ =>
      Err (Raise (LibraryError "OverflowError") "cannot convert float infinity to integer")
  | SpecFloat.S754_nan => Err (Raise ValueError "cannot convert float NaN to integer")
  end.

(** The truth value of a confidence in [if confidence:]: [None] and the
    zeros are false, every other float is true. *)
Definition truthy (confidence : option float) : bool :=
  match confidence with
  | None => false
  | Some c => negb (c =? 0)%float
  end.

(** What a display routine writes.  Numbers are kept as numbers: their
    formatting as percentages is not modelled, and a bar is given by the
    numbers of its filled and empty cells. *)
Inductive display_line : Type :=
| Analysis (iteration : Z)
| File (filename : string)
| Detected (emotion : string)
| Confidence (confidence : float)
| TopThree
| Entry (rank : Z) (emoji emotion : string) (filled empty : Z) (prob : float)
| Rule.

(** The table of [get_emotion_emoji]. *)
Definition emoji_map : gmap string string :=
  list_to_map [("Neutral", "😐"); ("Calm", "😌"); ("Happy", "😊"); ("Sad", "😢");
               ("Angry", "😠"); ("Fearful", "😨"); ("Disgust", "🤢");
               ("Surprised", "😲")]%string.

(** [LiveEmotionDetector.get_emotion_emoji(emotion)]:
    [emoji_map.get(emotion, '❓')]. *)
Definition get_emotion_emoji (emotion : string) : string :=
  default "❓"%string (emoji_map !! emotion).

(** The cells of a bar: ["█" * bar_length + "░" * (30 - bar_length)]; a
    string repeated a negative number of times is empty. *)
Definition bar_cells (bar_length : Z) : Z * Z :=
  (Z.max 0 bar_length, Z.max 0 (30 - bar_length)).

(** The [for rank, (emo, prob) in enumerate(sorted_probs, 1)] of
    [display_result] ([with_emoji]) and of [print_prediction_result]: the
    lines written, and the exception that ended the loop, if any. *)
Fixpoint top_entries (with_emoji : bool) (rank : Z) (sorted_probs : list (string * float))
  : list display_line * option exn :=
  match sorted_probs with
  | [] => ([], None)
  | (emo, prob) :: rest =>
      match int_of_float (prob * 30)%float with
      | Err e => ([], Some e)
      | Ok bar_length =>
          let '(filled, empty) := bar_cells bar_length in
          let emoji := if with_emoji then get_emotion_emoji emo else ""%string in
          let '(lines, raised) := top_entries with_emoji (rank + 1) rest in
          (Entry rank emoji emo filled empty prob :: lines, raised)
      end
  end.

(** [LiveEmotionDetector.display_result(emotion, confidence, probabilities,
    iteration)].  [sorted_items] stands for
    [sorted(probabilities.items(), key=lambda x: x[1], reverse=True)], whose
    order among equal values is the dict's insertion order. *)
Definition display_result (sorted_items : gmap string float -> list (string * float))
    (emotion : string) (confidence : option float) (probabilities : gmap string float)
    (iteration : Z) : list display_line * option exn :=
  let head := [Rule; Analysis iteration; Rule; Detected emotion] in
  match confidence with
  | Some c =>
      if truthy confidence then
        let sorted_probs := take 3 (sorted_items probabilities) in
        let '(lines, raised) := top_entries true 1 sorted_probs in
        match raised with
        | Some e => (head ++ [Confidence c; TopThree] ++ lines, Some e)
        | None => (head ++ [Confidence c; TopThree] ++ lines ++ [Rule], None)
        end
      else (head ++ [Rule], None)
  | None => (head ++ [Rule], None)
  end.

(** [print_prediction_result(filename, emotion, confidence, probabilities)]
    of the demo. *)
Definition print_prediction_result
    (sorted_items : gmap string float -> list (string * float))
    (filename emotion : string) (confidence : option float)
    (probabilities : gmap string float) : list display_line * option exn :=
  let head := [Rule; File filename; Rule; Detected emotion] in
  match confidence with
  | Some c =>
      let sorted_probs := take 3 (sorted_items probabilities) in
      let '(lines, raised) := top_entries false 1 sorted_probs in
      match raised with
      | Some e => (head ++ [Confidence c; TopThree] ++ lines, Some e)
      | None => (head ++ [Confidence c; TopThree] ++ lines ++ [Rule], None)
      end
  | None => (head ++ [Rule], None)
  end.

(** ** collections.deque *)

Module collections.

(** A deque with its [maxlen] ([None]: unbounded). *)
Record deque (A : Type) : Type := Deque { items : list A; maxlen : option nat }.
Arguments Deque {A} items maxlen.
Arguments items {A} d.
Arguments maxlen {A} d.

(** [deque(maxlen=n)]. *)
Definition new {A : Type} (n : nat) : deque A := Deque [] (Some n).

(** [d.append(x)]: a full bounded deque discards its leftmost item. *)
Definition append {A : Type} (d : deque A) (x : A) : deque A :=
  match maxlen d with
  | None => Deque (items d ++ [x]) None
  | Some n =>
      if (n =? 0)%nat then d
      else if (length (items d) <? n)%nat then Deque (items d ++ [x]) (Some n)
      else Deque (drop 1 (items d) ++ [x]) (Some n)
  end.

End collections.

(** ** live_emotion_detector.py *)

Module live_emotion_detector.
Import emotion_predictor.

(** The state of a [LiveEmotionDetector] object. *)
Record LiveEmotionDetector : Type := {
  predictor : EmotionPredictor;
  duration : Z;
  sample_rate : Z;
  is_recording : bool;
  history : collections.deque prediction
}.

(** What the detector does that can be observed from outside. *)
Inductive event : Type :=
| Sleep (seconds : Z)
| Recorded (audio : np.array)
| Printed (line : string)
| Predict (audio : np.array)
| Display (emotion : string) (confidence : option float)
    (probabilities : gmap string float) (iteration : Z).

(** How a driver ends: it returns, an exception leaves it, or the user's
    interrupt does. *)
Inductive outcome : Type :=
| Returned
| Raised (e : exn)
| Interrupted.

(** The silence threshold.  The recording is float32 (line 63), so its peak is
    a float32 scalar, and NumPy (2.0 and later) gives the Python float [0.01]
    the dtype of that scalar: the comparison is made in single precision with
    float32(0.01) = 0x1.47ae14p-7, which is a little below 0.01.  A float32
    value is a binary64 value and [<?] on such values is the single-precision
    comparison. *)
Definition silence_threshold : float := 0x1.47ae14p-7%float.

(** [np.max(np.abs(audio)) < 0.01]. *)
Definition too_quiet (audio : np.array) : result bool :=
  peak ← np.max (np.abs audio);
  Ok (peak <? silence_threshold)%float.

Section WithWorld.
Context (w : World).

(** [LiveEmotionDetector.__init__(model_path, scaler_path, duration,
    sample_rate)]. *)
Definition __init__ (model_path scaler_path : string) (duration sample_rate : Z)
  : result LiveEmotionDetector :=
  predictor ← emotion_predictor.__init__ w model_path scaler_path;
  Ok {| predictor := predictor;
        duration := duration;
        sample_rate := sample_rate;
        is_recording := false;
        history := collections.new 3 |}.

(** Lines 83-84: the only adjustment of the buffer's length. *)
Definition clip_audio (self : LiveEmotionDetector) (audio : np.array) : np.array :=
  if Z.of_nat (length audio) >? duration self * sample_rate self then
    slice_to audio (duration self * sample_rate self)
  else audio.

(** [LiveEmotionDetector.extract_features_from_audio(audio)]. *)
Definition extract_features_from_audio (self : LiveEmotionDetector) (audio : np.array)
  : result np.array :=
  let audio := clip_audio self audio in
  compute_features w audio (sample_rate self).

(** [LiveEmotionDetector.predict_from_audio(audio)]. *)
Definition predict_from_audio (self : LiveEmotionDetector) (audio : np.array)
  : result prediction :=
  features ← extract_features_from_audio self audio;
  classify (predictor self) features.

Definition quiet_warning_continuous : string := "Audio too quiet. Speak louder!".
Definition quiet_warning_single : string :=
  "Audio too quiet. Please speak louder and try again.".
Definition pause_notice : string := "Pausing 2 seconds before next recording...".

(** [LiveEmotionDetector.record_audio()].  [mic] lists the recordings the
    microphone delivers before the user interrupts; recording on an
    exhausted [mic] is the [KeyboardInterrupt].  The interrupt is thus taken
    to arrive while a recording is in progress, where a run spends its time
    waiting; an interrupt at another moment (the sleep before the loop, a
    prediction, a display, a pause) is not modelled. *)
Definition record_audio (self : LiveEmotionDetector) (mic : list np.array)
  : option (np.array * list np.array) :=
  match mic with
  | [] => None
  | audio :: mic => Some (audio, mic)
  end.

(** What [display_result] raises on a result, if anything: its [int(prob *
    30)] has no handler in either mode. *)
Definition display_raises (emotion : string) (confidence : option float)
    (probabilities : gmap string float) (iteration : Z) : option exn :=
  (display_result (sorted_by_probability w) emotion confidence probabilities iteration).2.

(** The [while True] of [run_continuous], by recursion on the recordings
    left.  The detector, the iteration counter and the trace are threaded.
    The enclosing [try] catches the interrupt only; any exception, of the
    silence check, of the prediction or of the display, leaves the loop and
    the method.  [Display] records the call of [display_result]. *)
Fixpoint run_continuous_loop (self : LiveEmotionDetector) (mic : list np.array)
    (iteration : Z) (trace : list event)
  : LiveEmotionDetector * list event * outcome :=
  match mic with
  | [] =>
      (self, trace ++ [Printed "Stopping live detection..."; Printed "Goodbye!"], Returned)
  | audio :: mic =>
      let iteration := iteration + 1 in
      let trace := trace ++ [Recorded audio] in
      match too_quiet audio with
      | Err e => (self, trace, Raised e)
      | Ok true =>
          run_continuous_loop self mic iteration
            (trace ++ [Printed quiet_warning_continuous])
      | Ok false =>
          let trace := trace ++ [Predict audio] in
          match predict_from_audio self audio with
          | Err e => (self, trace, Raised e)
          | Ok (emotion, confidence, probabilities) =>
              let trace := trace ++ [Display emotion confidence probabilities iteration] in
              match display_raises emotion confidence probabilities iteration with
              | Some e => (self, trace, Raised e)
              | None =>
                  run_continuous_loop self mic iteration
                    (trace ++ [Printed pause_notice; Sleep 2])
              end
          end
      end
  end.

(** [LiveEmotionDetector.run_continuous()]. *)
Definition run_continuous (self : LiveEmotionDetector) (mic : list np.array)
  : LiveEmotionDetector * list event * outcome :=
  run_continuous_loop self mic 0 [Sleep 3].

(** [LiveEmotionDetector.run_single()]. *)
Definition run_single (self : LiveEmotionDetector) (mic : list np.array)
  : LiveEmotionDetector * list event * outcome :=
  match record_audio self mic with
  | None => (self, [Sleep 3], Interrupted)
  | Some (audio, _) =>
      let trace := [Sleep 3; Recorded audio] in
      match too_quiet audio with
      | Err e => (self, trace, Raised e)
      | Ok true => (self, trace ++ [Printed quiet_warning_single], Returned)
      | Ok false =>
          let trace :=
            trace ++ [Printed "Recording complete. Analyzing..."; Predict audio] in
          match predict_from_audio self audio with
          | Err e => (self, trace, Raised e)
          | Ok (emotion, confidence, probabilities) =>
              let trace := trace ++ [Display emotion confidence probabilities 1] in
              match display_raises emotion confidence probabilities 1 with
              | Some e => (self, trace, Raised e)
              | None => (self, trace, Returned)
              end
          end
      end
  end.

(** [main()] of the live detector: the constructor with its defaults, then
    the mode typed at the prompt ([choice], stripped).  A constructor that
    raises is reported and [main] returns. *)
Definition main (choice : string) (mic : list np.array) : list event * outcome :=
  match __init__ "artifacts/svm_model.pkl" "artifacts/standard_scaler.pkl" 3 22050 with
  | Err e => ([Printed ("Error initializing detector: " +:+ str e)], Returned)
  | Ok detector =>
      if String.eqb choice "1" then
        let '(_, trace, out) := run_single detector mic in (trace, out)
      else if String.eqb choice "2" then
        let '(_, trace, out) := run_continuous detector mic in (trace, out)
      else if String.eqb choice "3" then ([Printed "Goodbye!"], Returned)
      else ([Printed "Invalid choice!"], Returned)
  end.

End WithWorld.

End live_emotion_detector.

(** ** demo_script.py *)

Module demo_script.
Import emotion_predictor.

(** What the demo writes: one [Shown] per call of
    [print_prediction_result], one [Line] per message. *)
Inductive output : Type :=
| Shown (filename emotion : string) (confidence : option float)
    (probabilities : gmap string float)
| Line (text : string).

(** How the process ends. *)
Inductive status : Type :=
| Exit (code : Z)
| Finished
| Uncaught (e : exn)
| Diverges.

(** The exit code the shell sees, when the process ends. *)
Definition exit_code (s : status) : option Z :=
  match s with
  | Exit code => Some code
  | Finished => Some 0
  | Uncaught _ => Some 1
  | Diverges => None
  end.

Definition is_FileNotFoundError (e : exn) : bool :=
  match class_of e with
  | FileNotFoundError => true
  | _ => false
  end.

(** [s.lower()] on ASCII letters. *)
Definition lower (s : string) : string :=
  string_of_list_ascii
    (map (fun c => let n := nat_of_ascii c in
                   if ((65 <=? n) && (n <=? 90))%nat then ascii_of_nat (n + 32) else c)
         (list_ascii_of_string s)).

Definition member (s : string) (l : list string) : bool := existsb (String.eqb s) l.

Section WithWorld.
Context (w : World).

(** [demo_single_file(predictor, audio_path)].  Its [try] covers the
    prediction and the call of [print_prediction_result], which [Shown]
    records; whatever either raises is reported in one line. *)
Definition demo_single_file (predictor : EmotionPredictor) (audio_path : string)
  : list output :=
  match predict w predictor audio_path with
  | Ok (emotion, confidence, probabilities) =>
      let filename := os_path_basename w audio_path in
      match (print_prediction_result (sorted_by_probability w)
               filename emotion confidence probabilities).2 with
      | None => [Shown filename emotion confidence probabilities]
      | Some e =>
          [Shown filename emotion confidence probabilities;
           Line ("Error processing " +:+ audio_path +:+ ": " +:+ str e)]
      end
  | Err e => [Line ("Error processing " +:+ audio_path +:+ ": " +:+ str e)]
  end.

(** The [for idx, audio_file in enumerate(wav_files, 1)] of
    [demo_directory]. *)
Fixpoint demo_files (predictor : EmotionPredictor) (idx total : Z)
    (wav_files : list string) : list output :=
  match wav_files with
  | [] => []
  | audio_file :: rest =>
      Line ("[" +:+ str_int idx +:+ "/" +:+ str_int total +:+ "]")
        :: demo_single_file predictor audio_file
        ++ demo_files predictor (idx + 1) total rest
  end.

(** [demo_directory(predictor, directory)]. *)
Definition demo_directory (predictor : EmotionPredictor) (directory : string)
  : list output :=
  let wav_files := glob_wav w directory in
  match wav_files with
  | [] => [Line ("No .wav files found in " +:+ directory)]
  | _ =>
      let total := Z.of_nat (length wav_files) in
      Line ("Found " +:+ str_int total +:+ " audio file(s)")
        :: demo_files predictor 1 total wav_files
  end.

(** The [while True] of [interactive_mode], by recursion on the lines
    typed ([stdin], each stripped).  At the end of the input [input()]
    raises [EOFError], the loop's [except Exception] reports it and the
    loop goes on: the function does not return. *)
Fixpoint interactive_mode (predictor : EmotionPredictor) (stdin : list string)
  : list output * status :=
  match stdin with
  | [] => ([Line "Error: EOF when reading a line"], Diverges)
  | user_input :: stdin =>
      if member (lower user_input) ["q"; "quit"; "exit"]%string then
        ([Line "Goodbye!"], Finished)
      else
        let shown :=
          if String.eqb user_input "" then []
          else if os_path_isfile w user_input then demo_single_file predictor user_input
          else if os_path_isdir w user_input then demo_directory predictor user_input
          else [Line ("File or directory not found: " +:+ user_input)] in
        let '(out, st) := interactive_mode predictor stdin in
        (shown ++ out, st)
  end.

(** The [for sample_dir in sample_dirs] of [demo_predefined_samples]. *)
Fixpoint first_sample_dir (predictor : EmotionPredictor) (sample_dirs : list string)
  : list output :=
  match sample_dirs with
  | [] => [Line "No sample directory found."]
  | sample_dir :: rest =>
      if os_path_isdir w sample_dir then
        Line ("Running demo on samples in '" +:+ sample_dir +:+ "/'...")
          :: demo_directory predictor sample_dir
      else first_sample_dir predictor rest
  end.

(** [demo_predefined_samples(predictor)]. *)
Definition demo_predefined_samples (predictor : EmotionPredictor) : list output :=
  first_sample_dir predictor ["samples"; "test_samples"; "data/test"; "demo_samples"]%string.

(** [main()]: [argv] is [sys.argv], [stdin] the lines typed, each
    stripped. *)
Definition main (argv : list string) (stdin : list string) : list output * status :=
  match emotion_predictor.__init__ w
          "artifacts/svm_model.pkl" "artifacts/standard_scaler.pkl" with
  | Err e =>
      if is_FileNotFoundError e then ([Line ("Error: " +:+ str e)], Exit 1)
      else ([Line ("Unexpected error: " +:+ str e)], Exit 1)
  | Ok predictor =>
      let started := [Line "Models loaded successfully!"] in
      if (1 <? length argv)%nat then
        match argv !! 1%nat with
        | None => (started, Finished)
        | Some path =>
            if os_path_isfile w path then
              (started ++ demo_single_file predictor path, Finished)
            else if os_path_isdir w path then
              (started ++ demo_directory predictor path, Finished)
            else (started ++ [Line ("Invalid path: " +:+ path)], Exit 1)
        end
      else
        let samples := demo_predefined_samples predictor in
        match stdin with
        | [] => (started ++ samples, Uncaught (Raise EOFError "EOF when reading a line"))
        | response :: stdin =>
            if member (lower response) ["y"; "yes"]%string then
              let '(out, st) := interactive_mode predictor stdin in
              (started ++ samples ++ out, st)
            else (started ++ samples ++ [Line "Goodbye!"], Finished)
        end
  end.

End WithWorld.

End demo_script.

(** ** The distribution as the specification words it *)

(** "Zip the returned probability vector with the classifier's fitted
    class-identifier order and map each through the label table": the pairs
    are entered in order, a later pair replacing an earlier one with the same
    label. *)
Definition enter (emotion_map : gmap Z string) (d : gmap string float)
    (pair : Z * float) : gmap string float :=
  let '(class_id, prob) := pair in
  match emotion_map !! class_id with
  | Some name => <[name := prob]> d
  | None => d
  end.

Definition zip_distribution (emotion_map : gmap Z string) (classes : list Z)
    (probs : np.array) : gmap string float :=
  fold_left (enter emotion_map) (zip classes probs) ∅.

(** ** The batch result as the specification words it *)

(** "One entry per input": the entry of a path is its prediction, or the
    failure marker when its prediction raises. *)
Definition entry_of (w : World) (self : emotion_predictor.EmotionPredictor)
    (path : string) : emotion_predictor.batch_entry :=
  match emotion_predictor.predict w self path with
  | Ok result => emotion_predictor.as_entry result
  | Err _ => emotion_predictor.failure_marker
  end.

(** ** A small concrete world, for running the definitions *)

Module Fixtures.
Import emotion_predictor live_emotion_detector.

Definition model_path : string := "artifacts/svm_model.pkl".
Definition scaler_path : string := "artifacts/standard_scaler.pkl".

(** A classifier fitted on the classes 3, 1, 5, 4, with probabilities. *)
Definition classifier : sklearn.Estimator := {|
  sklearn.n_features_in_ := None;
  sklearn.transform := None;
  sklearn.predict := Some (fun _ => Ok [3]);
  sklearn.predict_proba := Some (fun _ => Ok [[0.5; 0.25; 0.125; 0.125]%float]);
  sklearn.classes_ := Some [3; 1; 5; 4]
|}.

(** The same classifier without a probability operation. *)
Definition classifier_no_proba : sklearn.Estimator := {|
  sklearn.n_features_in_ := None;
  sklearn.transform := None;
  sklearn.predict := Some (fun _ => Ok [3]);
  sklearn.predict_proba := None;
  sklearn.classes_ := Some [3; 1; 5; 4]
|}.

(** A scaler fitted on [n] columns: as scikit-learn's does, its transform
    refuses a row of another width, and here leaves the others as they are. *)
Definition scaler_of (n : Z) : sklearn.Estimator := {|
  sklearn.n_features_in_ := Some n;
  sklearn.transform := Some (fun m =>
    if forallb (fun row => Z.of_nat (length row) =? n) m then Ok m
    else Err (Raise ValueError
                ("StandardScaler is expecting " +:+ str_int n +:+ " features as input.")));
  sklearn.predict := None;
  sklearn.predict_proba := None;
  sklearn.classes_ := None
|}.

Definition on_disk (files : list string) (path : string) : bool :=
  existsb (String.eqb path) files.

(** A stand-in for [sorted]: insertion sort by decreasing value. *)
Fixpoint insert_by_probability (item : string * float) (sorted : list (string * float))
  : list (string * float) :=
  match sorted with
  | [] => [item]
  | x :: rest =>
      if (x.2 <? item.2)%float then item :: x :: rest
      else x :: insert_by_probability item rest
  end.

Definition sorted_items (d : gmap string float) : list (string * float) :=
  foldr insert_by_probability [] (map_to_list d).

(** Both artifacts and [happy.wav] decode; [broken.wav] exists and does not
    decode.  The numeric kernels are stand-ins with librosa's shapes. *)
Definition world_with (files : list string) (clf : sklearn.Estimator) (n : Z) : World := {|
  os_path_exists := on_disk files;
  os_path_isfile := on_disk files;
  os_path_isdir := fun _ => false;
  os_path_basename := fun path => path;
  glob_wav := fun _ => [];
  joblib_load := fun path =>
    if String.eqb path model_path then Ok clf
    else if String.eqb path scaler_path then Ok (scaler_of n)
    else Err (Raise FileNotFoundError path);
  librosa_load := fun path sr _ =>
    if String.eqb path "happy.wav" then Ok ([0.5; -0.25; 0.125]%float, sr)
    else Err (Raise (LibraryError "NoBackendError") "could not decode");
  librosa_feature_mfcc := fun y _ n => Ok (repeat y n);
  librosa_feature_delta := fun m _ => Ok m;
  librosa_feature_spectral_centroid := fun y _ => Ok [y];
  librosa_feature_spectral_rolloff := fun y _ => Ok [y];
  librosa_feature_zero_crossing_rate := fun y => Ok [y];
  np_mean := fun a => hd 0%float a;
  np_std := fun _ => 0%float;
  sorted_by_probability := sorted_items
|}.

Definition all_files : list string :=
  [model_path; scaler_path; "happy.wav"; "broken.wav"]%string.

Definition world (n : Z) : World := world_with all_files classifier n.

Definition world_no_proba (n : Z) : World := world_with all_files classifier_no_proba n.

Definition predictor_of (clf : sklearn.Estimator) (n : Z) : EmotionPredictor := {|
  model := clf;
  scaler := scaler_of n;
  expected_features := n;
  emotion_map := RAVDESS
|}.

Definition detector_of (n : Z) : LiveEmotionDetector := {|
  predictor := predictor_of classifier n;
  duration := 3;
  sample_rate := 22050;
  is_recording := false;
  history := collections.new 3
|}.

(** A detector that analyses two samples: one second at 2 Hz. *)
Definition short_detector : LiveEmotionDetector := {|
  predictor := predictor_of classifier_no_proba 81;
  duration := 1;
  sample_rate := 2;
  is_recording := false;
  history := collections.new 3
|}.

(** A world whose scaler file is missing. *)
Definition world_without_scaler : World :=
  world_with [model_path; "happy.wav"]%string classifier 82.

Definition loud : np.array := [0.5; -0.25; 0.125]%float.
Definition quiet : np.array := [0.0009765625; -0.00390625; 0]%float.

(** The 81 scalars the stand-in kernels give for [loud]. *)
Definition loud_features : np.array :=
  Eval vm_compute in
  match compute_features (world 82) loud 22050 with
  | Ok features => features
  | Err _ => []
  end.

Definition loud_distribution : gmap string float :=
  zip_distribution RAVDESS [3; 1; 5; 4] [0.5; 0.25; 0.125; 0.125]%float.

End Fixtures.

(** ** Observations on results and traces *)

(** The eight labels of the RAVDESS table, in the order of their ids. *)
Definition canonical_labels : list string :=
  ["Neutral"; "Calm"; "Happy"; "Sad"; "Angry"; "Fearful"; "Disgust"; "Surprised"]%string.

(** Whether a batch entry is the failure marker: a prediction's first
    component is a label, the marker's is [None]. *)
Definition is_failure (entry : emotion_predictor.batch_entry) : bool :=
  match entry with
  | (None, _, _) => true
  | (Some _, _, _) => false
  end.

(** The iteration numbers the live loop displayed, in order. *)
Definition displayed_iterations (trace : list live_emotion_detector.event) : list Z :=
  omap (fun e => match e with
                 | live_emotion_detector.Display _ _ _ iteration => Some iteration
                 | _ => None
                 end) trace.


Definition recorded_buffers (trace : list live_emotion_detector.event) : list np.array :=
  omap (fun e => match e with
                 | live_emotion_detector.Recorded audio => Some audio
                 | _ => None
                 end) trace.

Definition pauses (trace : list live_emotion_detector.event) : list Z :=
  omap (fun e => match e with
                 | live_emotion_detector.Sleep seconds => Some seconds
                 | _ => None
                 end) trace.

(** The files the demo showed a prediction for, and the error lines. *)
Definition shown_files (out : list demo_script.output) : list string :=
  omap (fun o => match o with
                 | demo_script.Shown filename _ _ _ => Some filename
                 | demo_script.Line _ => None
                 end) out.


(** ** Further concrete worlds *)

Module Scenarios.
Import emotion_predictor live_emotion_detector.

(** A classifier that predicts a class outside the label table. *)
Definition classifier_class_9 : sklearn.Estimator := {|
  sklearn.n_features_in_ := None;
  sklearn.transform := None;
  sklearn.predict := Some (fun _ => Ok [9]);
  sklearn.predict_proba := None;
  sklearn.classes_ := Some [3; 1; 5; 4]
|}.

(** A classifier that returns five probabilities for four fitted classes. *)
Definition classifier_long_proba : sklearn.Estimator := {|
  sklearn.n_features_in_ := None;
  sklearn.transform := None;
  sklearn.predict := Some (fun _ => Ok [3]);
  sklearn.predict_proba :=
    Some (fun _ => Ok [[0.5; 0.125; 0.125; 0.125; 0.125]%float]);
  sklearn.classes_ := Some [3; 1; 5; 4]
|}.

(** A pickled object without [n_features_in_] in the scaler's place. *)
Definition world_old_scaler : World := {|
  os_path_exists := Fixtures.on_disk Fixtures.all_files;
  os_path_isfile := Fixtures.on_disk Fixtures.all_files;
  os_path_isdir := fun _ => false;
  os_path_basename := fun path => path;
  glob_wav := fun _ => [];
  joblib_load := fun _ => Ok Fixtures.classifier;
  librosa_load := librosa_load (Fixtures.world 81);
  librosa_feature_mfcc := librosa_feature_mfcc (Fixtures.world 81);
  librosa_feature_delta := librosa_feature_delta (Fixtures.world 81);
  librosa_feature_spectral_centroid := librosa_feature_spectral_centroid (Fixtures.world 81);
  librosa_feature_spectral_rolloff := librosa_feature_spectral_rolloff (Fixtures.world 81);
  librosa_feature_zero_crossing_rate := librosa_feature_zero_crossing_rate (Fixtures.world 81);
  np_mean := np_mean (Fixtures.world 81);
  np_std := np_std (Fixtures.world 81);
  sorted_by_probability := Fixtures.sorted_items
|}.

(** A world with a directory [clips] holding a good and an undecodable
    file. *)
Definition world_with_directory : World := {|
  os_path_exists := fun path =>
    Fixtures.on_disk Fixtures.all_files path || String.eqb path "clips";
  os_path_isfile := Fixtures.on_disk Fixtures.all_files;
  os_path_isdir := fun path => String.eqb path "clips";
  os_path_basename := fun path => path;
  glob_wav := fun directory =>
    if String.eqb directory "clips" then ["happy.wav"; "broken.wav"]%string else [];
  joblib_load := joblib_load (Fixtures.world 81);
  librosa_load := librosa_load (Fixtures.world 81);
  librosa_feature_mfcc := librosa_feature_mfcc (Fixtures.world 81);
  librosa_feature_delta := librosa_feature_delta (Fixtures.world 81);
  librosa_feature_spectral_centroid := librosa_feature_spectral_centroid (Fixtures.world 81);
  librosa_feature_spectral_rolloff := librosa_feature_spectral_rolloff (Fixtures.world 81);
  librosa_feature_zero_crossing_rate := librosa_feature_zero_crossing_rate (Fixtures.world 81);
  np_mean := np_mean (Fixtures.world 81);
  np_std := np_std (Fixtures.world 81);
  sorted_by_probability := Fixtures.sorted_items
|}.

(** A recording with a NaN sample among quiet ones. *)
Definition with_nan : np.array := [0.0009765625; nan; 0]%float.

(** A detector whose product of duration and rate is negative. *)
Definition negative_detector : LiveEmotionDetector := {|
  predictor := Fixtures.predictor_of Fixtures.classifier 81;
  duration := -1;
  sample_rate := 2;
  is_recording := false;
  history := collections.new 3
|}.

End Scenarios.

(** ** The order of binary64 values *)

(** A rank for the values that are not NaN: comparing two such values is
    comparing their ranks lexicographically.  Used to reason about [<?] on
    samples; no definition of the code refers to it. *)
Definition rank (f : SpecFloat.spec_float) : option (Z * Z * Z) :=
  match f with
  | SpecFloat.S754_nan => None
  | SpecFloat.S754_infinity true => Some (-3, 0, 0)
  | SpecFloat.S754_infinity false => Some (3, 0, 0)
  | SpecFloat.S754_zero _ => Some (0, 0, 0)
  | SpecFloat.S754_finite false m e => Some (1, e, Z.pos m)
  | SpecFloat.S754_finite true m e => Some (-1, - e, Z.neg m)
  end.

Definition rank_lt (k1 k2 : Z * Z * Z) : Prop :=
  let '(a1, b1, c1) := k1 in
  let '(a2, b2, c2) := k2 in
  a1 < a2 \/ (a1 = a2 /\ (b1 < b2 \/ (b1 = b2 /\ c1 < c2))).

(** * Properties *)

(** ** The runtime *)

Lemma bind_Ok {A B : Type} (r : result A) (f : A -> result B) (b : B) :
  r ≫= f = Ok b -> exists a, r = Ok a /\ f a = Ok b.
Proof. destruct r as [a|e]; [eauto | discriminate]. Qed.

Lemma getattr_Ok {A : Type} (name : string) (attr : option A) (a : A) :
  getattr name attr = Ok a <-> attr = Some a.
Proof. destruct attr; simpl; split; congruence. Qed.

Lemma getitem_Ok {A : Type} (l : list A) (i : nat) (a : A) :
  getitem l i = Ok a <-> l !! i = Some a.
Proof. unfold getitem. destruct (l !! i); split; congruence. Qed.

Lemma dict_getitem_Ok {K V : Type} `{Countable K} (repr : K -> string)
    (d : gmap K V) (k : K) (v : V) :
  dict_getitem repr d k = Ok v <-> d !! k = Some v.
Proof. unfold dict_getitem. destruct (d !! k); split; congruence. Qed.

(** ** The feature vector *)

Section Features.
Context (w : World).

(** With librosa's shapes the vector before reconciliation has
    13 * 6 + 3 = 81 scalars. *)
Lemma compute_features_length (y : np.array) (sr : Z) (features : np.array) :
  LibrosaShapes w ->
  compute_features w y sr = Ok features ->
  length features = 81%nat.
Proof.
  intros [Hmfcc Hdelta] H. unfold compute_features in H.
  apply bind_Ok in H as (mfcc & Hm & H).
  apply bind_Ok in H as (d1 & Hd1 & H).
  apply bind_Ok in H as (d2 & Hd2 & H).
  apply bind_Ok in H as (sc & _ & H).
  apply bind_Ok in H as (ro & _ & H).
  apply bind_Ok in H as (zc & _ & H).
  injection H as <-.
  apply Hmfcc in Hm. apply Hdelta in Hd1, Hd2.
  unfold np.hstack, mean_axis1, std_axis1. simpl.
  rewrite !length_app, !length_map, Hd1, Hd2, Hm. reflexivity.
Qed.

End Features.

Lemma world_shapes (files : list string) (clf : sklearn.Estimator) (n : Z) :
  LibrosaShapes (Fixtures.world_with files clf n).
Proof.
  split; simpl.
  - intros y sr k m [= <-]. apply repeat_length.
  - intros m order d [= <-]. reflexivity.
Qed.

(** ** Dimension reconciliation in [extract_features] *)

Section Reconciliation.
Import emotion_predictor.
Context (w : World).

Lemma fix_feature_count_same (self : EmotionPredictor) (features : np.array) :
  Z.of_nat (length features) = expected_features self ->
  fix_feature_count self features = Ok features.
Proof.
  intros H. unfold fix_feature_count. rewrite H, Z.eqb_refl. reflexivity.
Qed.

Lemma fix_feature_count_82 (self : EmotionPredictor) (features : np.array) :
  length features = 81%nat -> expected_features self = 82 ->
  fix_feature_count self features = Ok (features ++ [0%float]).
Proof.
  intros Hlen He. unfold fix_feature_count, np.hstack. rewrite Hlen, He. simpl.
  reflexivity.
Qed.

Lemma fix_feature_count_83 (self : EmotionPredictor) (features : np.array) :
  length features = 81%nat -> expected_features self = 83 ->
  fix_feature_count self features = Ok (features ++ [0%float; 0%float]).
Proof.
  intros Hlen He. unfold fix_feature_count, np.hstack. rewrite Hlen, He. simpl.
  reflexivity.
Qed.

(** Every other mismatch raises the [ValueError] of line 162. *)
Lemma fix_feature_count_mismatch (self : EmotionPredictor) (features : np.array) :
  Z.of_nat (length features) <> expected_features self ->
  ~ (length features = 81%nat /\
     (expected_features self = 82 \/ expected_features self = 83)) ->
  fix_feature_count self features =
    Err (Raise ValueError
           ("Feature dimension mismatch: expected "
              +:+ str_int (expected_features self)
              +:+ ", got " +:+ str_int (Z.of_nat (length features)))).
Proof.
  intros Hne Hno. unfold fix_feature_count.
  destruct (Z.eqb_spec (Z.of_nat (length features)) (expected_features self)) as [|_];
    [contradiction|]. simpl.
  destruct (Z.eqb_spec (Z.of_nat (length features)) 81) as [H81|]; simpl; [|reflexivity].
  destruct (Z.eqb_spec (expected_features self) 82); simpl; [exfalso; apply Hno; lia|].
  destruct (Z.eqb_spec (expected_features self) 83); simpl; [exfalso; apply Hno; lia|].
  reflexivity.
Qed.

(** What [fix_feature_count] returns has the expected length, and is the
    input, or the input of length 81 with one of the two paddings. *)
Lemma fix_feature_count_Ok (self : EmotionPredictor) (features v : np.array) :
  fix_feature_count self features = Ok v ->
  Z.of_nat (length v) = expected_features self /\
  (Z.of_nat (length features) = expected_features self /\ v = features \/
   length features = 81%nat /\ expected_features self = 82 /\ v = features ++ [0%float] \/
   length features = 81%nat /\ expected_features self = 83 /\
     v = features ++ [0%float; 0%float]).
Proof.
  unfold fix_feature_count, np.hstack.
  destruct (Z.eqb_spec (Z.of_nat (length features)) (expected_features self)) as [Heq|Hne];
    simpl.
  { intros [= <-]. auto. }
  destruct (Z.eqb_spec (Z.of_nat (length features)) 81) as [H81|]; simpl; [|discriminate].
  destruct (Z.eqb_spec (expected_features self) 82) as [H82|]; simpl.
  { intros [= <-]. rewrite length_app. simpl. split; [lia|].
    right; left. repeat split; [lia|assumption]. }
  destruct (Z.eqb_spec (expected_features self) 83) as [H83|]; simpl; [|discriminate].
  intros [= <-]. rewrite length_app. simpl. split; [lia|].
  right; right. repeat split; [lia|assumption].
Qed.

(** [extract_features] on a file that exists and decodes, once the
    features are computed: the reconciliation decides. *)
Lemma extract_features_decoded (self : EmotionPredictor) (audio_path : string)
    (sr : Z) (duration : float) (y : np.array) (sr' : Z) (features : np.array) :
  os_path_exists w audio_path = true ->
  librosa_load w audio_path sr duration = Ok (y, sr') ->
  compute_features w y sr' = Ok features ->
  extract_features w self audio_path sr duration =
    try_except (fix_feature_count self features)
      (fun e => Err (Raise Exception ("Feature extraction failed: " +:+ str e))).
Proof.
  intros Hex Hload Hfeat. unfold extract_features.
  rewrite Hex, Hload. simpl. rewrite Hfeat. reflexivity.
Qed.

(** Whatever [extract_features] returns has the length the scaler
    expects. *)
Lemma extract_features_length (self : EmotionPredictor) (audio_path : string)
    (sr : Z) (duration : float) (v : np.array) :
  extract_features w self audio_path sr duration = Ok v ->
  Z.of_nat (length v) = expected_features self.
Proof.
  unfold extract_features.
  destruct (os_path_exists w audio_path); simpl; [|discriminate].
  destruct (librosa_load w audio_path sr duration) as [[y sr']|]; simpl; [|discriminate].
  destruct (compute_features w y sr') as [features|]; simpl; [|discriminate].
  destruct (fix_feature_count self features) as [v'|] eqn:Hfix; simpl; [|discriminate].
  intros [= <-]. apply fix_feature_count_Ok in Hfix. tauto.
Qed.

(** For a scaler fitted on 81, 82 or 83 columns the file path does return,
    as soon as the decoder and the kernels do. *)
Lemma extract_features_returns (self : EmotionPredictor) (audio_path : string)
    (sr : Z) (duration : float) (y : np.array) (sr' : Z) (features : np.array) :
  LibrosaShapes w ->
  os_path_exists w audio_path = true ->
  librosa_load w audio_path sr duration = Ok (y, sr') ->
  compute_features w y sr' = Ok features ->
  81 <= expected_features self <= 83 ->
  exists v, extract_features w self audio_path sr duration = Ok v /\
            Z.of_nat (length v) = expected_features self /\
            take 81 v = features.
Proof.
  intros Hw Hex Hload Hfeat Hrange.
  pose proof (compute_features_length w y sr' features Hw Hfeat) as Hlen.
  rewrite (extract_features_decoded self audio_path sr duration y sr' features) by assumption.
  assert (expected_features self = 81 \/ expected_features self = 82 \/
          expected_features self = 83) as [He|[He|He]] by lia.
  - rewrite fix_feature_count_same by lia. simpl. exists features.
    split; [reflexivity|]. split; [lia|]. apply firstn_all2. lia.
  - rewrite fix_feature_count_82 by assumption. simpl. eexists.
    split; [reflexivity|]. rewrite length_app. simpl. split; [lia|].
    rewrite take_app_length'; [reflexivity|symmetry; assumption].
  - rewrite fix_feature_count_83 by assumption. simpl. eexists.
    split; [reflexivity|]. rewrite length_app. simpl. split; [lia|].
    rewrite take_app_length'; [reflexivity|symmetry; assumption].
Qed.

End Reconciliation.

Section ReconciliationClaims.
Import emotion_predictor live_emotion_detector.
Context (w : World).

(** C2.  In [extract_features], on a file that exists and decodes and whose
    features are computed: with 81 features and a scaler expecting 82 the
    result is the 81 features followed by one zero (so its last entry is
    0.0); with 81 features and a scaler expecting 83 it is the 81 features
    followed by two zeros; and whenever the produced length differs from
    the expected one and a vector is returned, the produced length was 81
    and exactly one of these two paddings was applied. *)
Theorem extract_features_padding (self : EmotionPredictor) (audio_path : string)
    (sr : Z) (duration : float) (y : np.array) (sr' : Z) (features : np.array) :
  os_path_exists w audio_path = true ->
  librosa_load w audio_path sr duration = Ok (y, sr') ->
  compute_features w y sr' = Ok features ->
  (length features = 81%nat -> expected_features self = 82 ->
     extract_features w self audio_path sr duration = Ok (features ++ [0%float]) /\
     last (features ++ [0%float]) = Some 0%float) /\
  (length features = 81%nat -> expected_features self = 83 ->
     extract_features w self audio_path sr duration = Ok (features ++ [0%float; 0%float])) /\
  (forall v : np.array,
     Z.of_nat (length features) <> expected_features self ->
     extract_features w self audio_path sr duration = Ok v ->
     length features = 81%nat /\
     (expected_features self = 82 /\ v = features ++ [0%float] \/
      expected_features self = 83 /\ v = features ++ [0%float; 0%float]) /\
     ~ (expected_features self = 82 /\ expected_features self = 83)).
Proof.
  intros Hex Hload Hfeat.
  rewrite (extract_features_decoded w self audio_path sr duration y sr' features)
    by assumption.
  split; [|split].
  - intros Hlen He. rewrite fix_feature_count_82 by assumption.
    split; [reflexivity | apply last_snoc].
  - intros Hlen He. rewrite fix_feature_count_83 by assumption. reflexivity.
  - intros v Hne Hv.
    destruct (fix_feature_count self features) as [v'|] eqn:Hfix; [|discriminate].
    simpl in Hv. injection Hv as ->.
    apply fix_feature_count_Ok in Hfix. split; [tauto|]. split; [tauto|lia].
Qed.

(** C7, as amended.  On a file that exists: a produced length that differs
    from the expected one and is not reconciled by the two rules makes
    [extract_features] raise the generic [Exception] whose message is
    "Feature extraction failed: Feature dimension mismatch: expected E,
    got P" (both lengths are named); a failure of the decoder or of a
    numeric kernel is raised as the same class, with the same prefix
    before the underlying message. *)
Theorem dimension_error_is_wrapped (self : EmotionPredictor) (audio_path : string)
    (sr : Z) (duration : float) :
  os_path_exists w audio_path = true ->
  (forall (y : np.array) (sr' : Z) (features : np.array),
     librosa_load w audio_path sr duration = Ok (y, sr') ->
     compute_features w y sr' = Ok features ->
     Z.of_nat (length features) <> expected_features self ->
     ~ (length features = 81%nat /\
        (expected_features self = 82 \/ expected_features self = 83)) ->
     extract_features w self audio_path sr duration =
       Err (Raise Exception
              ("Feature extraction failed: Feature dimension mismatch: expected "
                 +:+ str_int (expected_features self)
                 +:+ ", got " +:+ str_int (Z.of_nat (length features))))) /\
  (forall e : exn,
     librosa_load w audio_path sr duration = Err e ->
     extract_features w self audio_path sr duration =
       Err (Raise Exception ("Feature extraction failed: " +:+ str e))) /\
  (forall (y : np.array) (sr' : Z) (e : exn),
     librosa_load w audio_path sr duration = Ok (y, sr') ->
     compute_features w y sr' = Err e ->
     extract_features w self audio_path sr duration =
       Err (Raise Exception ("Feature extraction failed: " +:+ str e))).
Proof.
  intros Hex. repeat split.
  - intros y sr' features Hload Hfeat Hne Hno.
    rewrite (extract_features_decoded w self audio_path sr duration y sr' features)
      by assumption.
    rewrite fix_feature_count_mismatch by assumption. reflexivity.
  - intros e Hload. unfold extract_features. rewrite Hex, Hload. reflexivity.
  - intros y sr' e Hload Hfeat. unfold extract_features.
    rewrite Hex, Hload. simpl. rewrite Hfeat. reflexivity.
Qed.

(** C1, on the live-capture path.  Whatever
    [extract_features_from_audio] returns has 81 scalars, whatever number
    of features the loaded scaler expects: no padding rule is applied
    there. *)
Theorem live_features_are_81 (self : LiveEmotionDetector) (audio features : np.array) :
  LibrosaShapes w ->
  extract_features_from_audio w self audio = Ok features ->
  length features = 81%nat.
Proof.
  intros Hw H. unfold extract_features_from_audio in H.
  exact (compute_features_length w _ _ _ Hw H).
Qed.

End ReconciliationClaims.

Lemma extract_features_padding_witness :
  emotion_predictor.extract_features (Fixtures.world 82)
    (Fixtures.predictor_of Fixtures.classifier 82) "happy.wav" 22050 3%float
  = Ok (Fixtures.loud_features ++ [0%float]) /\
  last (Fixtures.loud_features ++ [0%float]) = Some 0%float.
Proof.
  apply (extract_features_padding (Fixtures.world 82)
           (Fixtures.predictor_of Fixtures.classifier 82) "happy.wav" 22050 3%float
           Fixtures.loud 22050 Fixtures.loud_features);
    vm_compute; reflexivity.
Defined.

Lemma dimension_error_is_wrapped_witness :
  emotion_predictor.extract_features (Fixtures.world 80)
    (Fixtures.predictor_of Fixtures.classifier 80) "happy.wav" 22050 3%float
  = Err (Raise Exception
           "Feature extraction failed: Feature dimension mismatch: expected 80, got 81").
Proof.
  apply (proj1 (dimension_error_is_wrapped (Fixtures.world 80)
                  (Fixtures.predictor_of Fixtures.classifier 80) "happy.wav" 22050 3%float
                  eq_refl)
           Fixtures.loud 22050 Fixtures.loud_features).
  - vm_compute; reflexivity.
  - vm_compute; reflexivity.
  - vm_compute. discriminate.
  - intros [_ [H|H]]; vm_compute in H; discriminate.
Defined.

(** C7, as stated, fails: with a scaler expecting 80 features the error of the
    dimension check and the error of a file that does not decode leave
    [extract_features] as the same class, [Exception], not as [ValueError]. *)
Lemma dimension_error_class_not_distinct :
  let self := Fixtures.predictor_of Fixtures.classifier 80 in
  let mismatch :=
    emotion_predictor.extract_features (Fixtures.world 80) self "happy.wav" 22050 3%float in
  let undecodable :=
    emotion_predictor.extract_features (Fixtures.world 80) self "broken.wav" 22050 3%float in
  raised_class mismatch = Some Exception /\
  raised_class undecodable = Some Exception /\
  ~ (raised_class mismatch <> raised_class undecodable).
Proof.
  vm_compute. repeat split. intros H. apply H. reflexivity.
Qed.

Lemma live_features_are_81_witness :
  live_emotion_detector.extract_features_from_audio (Fixtures.world 82)
    (Fixtures.detector_of 82) Fixtures.loud = Ok Fixtures.loud_features /\
  length Fixtures.loud_features = 81%nat /\
  Z.of_nat (length Fixtures.loud_features)
    <> emotion_predictor.expected_features
         (live_emotion_detector.predictor (Fixtures.detector_of 82)).
Proof.
  split; [vm_compute; reflexivity|]. split.
  - apply (live_features_are_81 (Fixtures.world 82) (Fixtures.detector_of 82)
             Fixtures.loud Fixtures.loud_features).
    + apply world_shapes.
    + vm_compute; reflexivity.
  - vm_compute. discriminate.
Defined.

(** ** Prediction: label, confidence and distribution *)

Section Prediction.
Import emotion_predictor.
Context (w : World).

(** The loop of [predict], when it completes, has zipped the probabilities
    with the classes from position [idx] on; all of them were in range and
    in the label table. *)
Lemma map_probabilities_Ok (model : sklearn.Estimator) (emotion_map : gmap Z string)
    (probs : np.array) :
  forall (idx : nat) (acc d : gmap string float),
    map_probabilities model emotion_map idx probs acc = Ok d ->
    let classes := drop idx (default [] (sklearn.classes_ model)) in
    d = fold_left (enter emotion_map) (zip classes probs) acc /\
    (length probs <= length classes)%nat /\
    Forall (fun class_id => is_Some (emotion_map !! class_id)) (take (length probs) classes).
Proof.
  induction probs as [|prob rest IH]; intros idx acc d H; simpl in *.
  - injection H as <-. rewrite zip_with_nil_r. repeat split; [lia|].
    rewrite take_0. constructor.
  - apply bind_Ok in H as (classes & Hc & H). apply getattr_Ok in Hc.
    apply bind_Ok in H as (class_id & Hi & H). apply getitem_Ok in Hi.
    apply bind_Ok in H as (name & Hn & H). apply dict_getitem_Ok in Hn.
    apply IH in H as (-> & Hlen & Hall).
    rewrite Hc in *. simpl in *.
    rewrite (drop_S _ _ _ Hi). simpl. rewrite Hn.
    repeat split; [lia|]. constructor; [eauto | assumption].
Qed.

(** Conversely the loop completes on classes that are in range and in the
    table. *)
Lemma map_probabilities_zip (model : sklearn.Estimator) (emotion_map : gmap Z string)
    (all_classes : list Z) (probs : np.array) :
  sklearn.classes_ model = Some all_classes ->
  forall (idx : nat) (acc : gmap string float),
    let classes := drop idx all_classes in
    (length probs <= length classes)%nat ->
    Forall (fun class_id => is_Some (emotion_map !! class_id)) (take (length probs) classes) ->
    map_probabilities model emotion_map idx probs acc
    = Ok (fold_left (enter emotion_map) (zip classes probs) acc).
Proof.
  intros Hc. induction probs as [|prob rest IH]; intros idx acc classes Hlen Hall.
  - simpl. rewrite zip_with_nil_r. reflexivity.
  - subst classes. simpl in *. rewrite Hc. simpl.
    destruct (drop idx all_classes) as [|class_id tl] eqn:Hdrop; simpl in *; [lia|].
    assert (all_classes !! idx = Some class_id) as Hi.
    { rewrite <- (Nat.add_0_r idx), <- lookup_drop, Hdrop. reflexivity. }
    unfold getitem. rewrite Hi. simpl.
    apply Forall_cons in Hall as [[name Hn] Hall].
    unfold dict_getitem. rewrite Hn. simpl.
    assert (drop (S idx) all_classes = tl) as Htl.
    { rewrite (drop_S _ _ _ Hi) in Hdrop. congruence. }
    rewrite IH; rewrite Htl; [reflexivity | lia | assumption].
Qed.

(** C3.  For every result [(label, confidence, distribution)] that
    [predict] returns: the label is the table's entry for the class the
    classifier predicted on the scaled row; if the classifier has
    [predict_proba], the distribution is the zip of its probability vector
    with [model.classes_] (as many classes as there are probabilities, all
    of them in the table) mapped through the label table, and the
    confidence is the distribution's entry for the label; if it has none,
    the confidence is [None] and the distribution is empty. *)
Theorem predict_result (self : EmotionPredictor) (audio_path : string)
    (label : string) (confidence : option float) (distribution : gmap string float) :
  predict w self audio_path = Ok (label, confidence, distribution) ->
  exists (features : np.array) (scaled : np.matrix) scaler_transform model_predict
         (ids : list Z) (emotion_id : Z),
    extract_features w self audio_path 22050 3%float = Ok features /\
    sklearn.transform (scaler self) = Some scaler_transform /\
    scaler_transform [features] = Ok scaled /\
    sklearn.predict (model self) = Some model_predict /\
    model_predict scaled = Ok ids /\ ids !! 0%nat = Some emotion_id /\
    emotion_map self !! emotion_id = Some label /\
    match sklearn.predict_proba (model self) with
    | Some model_predict_proba =>
        exists (rows : np.matrix) (probs : np.array) (classes : list Z) (p : float),
          model_predict_proba scaled = Ok rows /\ rows !! 0%nat = Some probs /\
          default [] (sklearn.classes_ (model self)) = classes /\
          (length probs <= length classes)%nat /\
          Forall (fun class_id => is_Some (emotion_map self !! class_id))
            (take (length probs) classes) /\
          distribution = zip_distribution (emotion_map self) classes probs /\
          confidence = Some p /\
          distribution !! label = Some p
    | None => confidence = None /\ distribution = ∅
    end.
Proof.
  intros H. unfold predict in H.
  apply bind_Ok in H as (features & Hfeat & H). unfold classify in H.
  apply bind_Ok in H as (tr & Htr & H). apply getattr_Ok in Htr.
  apply bind_Ok in H as (scaled & Hscaled & H).
  apply bind_Ok in H as (pr & Hpr & H). apply getattr_Ok in Hpr.
  apply bind_Ok in H as (emotion_id & Hid & H).
  apply bind_Ok in Hid as (ids & Hids & Hid). apply getitem_Ok in Hid.
  apply bind_Ok in H as (label' & Hlabel & H). apply dict_getitem_Ok in Hlabel.
  exists features, scaled, tr, pr, ids, emotion_id.
  destruct (sklearn.predict_proba (model self)) as [proba|].
  - apply bind_Ok in H as (probs & Hprobs & H).
    apply bind_Ok in Hprobs as (rows & Hrows & Hprobs). apply getitem_Ok in Hprobs.
    apply bind_Ok in H as (d & Hd & H).
    apply bind_Ok in H as (p & Hp & H). apply dict_getitem_Ok in Hp.
    injection H as -> <- <-.
    apply map_probabilities_Ok in Hd as (Hd & Hlen & Hall).
    rewrite drop_0 in Hd, Hlen, Hall.
    repeat split; try assumption.
    exists rows, probs, (default [] (sklearn.classes_ (model self))), p.
    repeat split; assumption.
  - injection H as -> <- <-. repeat split; assumption.
Qed.

(** [predict] does return, with that result, when the externals succeed,
    the classes are in the table and the predicted label is among the
    first [length probs] fitted classes. *)
Lemma predict_returns (self : EmotionPredictor) (audio_path : string)
    (features : np.array) (scaled : np.matrix) scaler_transform model_predict
    (ids : list Z) (emotion_id : Z) (label : string) :
  extract_features w self audio_path 22050 3%float = Ok features ->
  sklearn.transform (scaler self) = Some scaler_transform ->
  scaler_transform [features] = Ok scaled ->
  sklearn.predict (model self) = Some model_predict ->
  model_predict scaled = Ok ids -> ids !! 0%nat = Some emotion_id ->
  emotion_map self !! emotion_id = Some label ->
  (sklearn.predict_proba (model self) = None ->
     predict w self audio_path = Ok (label, None, ∅)) /\
  (forall model_predict_proba (rows : np.matrix) (probs : np.array) (classes : list Z)
          (p : float),
     sklearn.predict_proba (model self) = Some model_predict_proba ->
     model_predict_proba scaled = Ok rows -> rows !! 0%nat = Some probs ->
     sklearn.classes_ (model self) = Some classes ->
     (length probs <= length classes)%nat ->
     Forall (fun class_id => is_Some (emotion_map self !! class_id))
       (take (length probs) classes) ->
     zip_distribution (emotion_map self) classes probs !! label = Some p ->
     predict w self audio_path
     = Ok (label, Some p, zip_distribution (emotion_map self) classes probs)).
Proof.
  intros Hfeat Htr Hscaled Hpr Hids Hid Hlabel.
  assert (predict w self audio_path =
    match sklearn.predict_proba (model self) with
    | Some model_predict_proba =>
        probs ← model_predict_proba scaled ≫= (fun rows => getitem rows 0);
        probabilities ← map_probabilities (model self) (emotion_map self) 0 probs ∅;
        confidence ← dict_getitem repr_str probabilities label;
        Ok (label, Some confidence, probabilities)
    | None => Ok (label, None, ∅)
    end) as Hunfold.
  { unfold predict. rewrite Hfeat. simpl. unfold classify, np.reshape_row.
    rewrite Htr, Hpr. simpl. rewrite Hscaled. simpl. rewrite Hids. simpl.
    unfold getitem, dict_getitem. rewrite Hid. simpl. rewrite Hlabel. reflexivity. }
  rewrite Hunfold. split.
  - intros ->. reflexivity.
  - intros proba rows probs classes p -> Hrows Hprobs Hc Hlen Hall Hp.
    rewrite Hrows. simpl. unfold getitem. rewrite Hprobs. simpl.
    rewrite (map_probabilities_zip _ _ classes probs Hc 0 ∅)
      by (rewrite drop_0; assumption).
    rewrite drop_0. simpl. fold (zip_distribution (emotion_map self) classes probs).
    unfold dict_getitem. rewrite Hp. reflexivity.
Qed.

End Prediction.

Lemma predict_result_witness :
  (emotion_predictor.predict (Fixtures.world 82)
     (Fixtures.predictor_of Fixtures.classifier 82) "happy.wav"
   = Ok ("Happy"%string, Some 0.5%float, Fixtures.loud_distribution) /\
   Fixtures.loud_distribution
   = zip_distribution emotion_predictor.RAVDESS [3; 1; 5; 4]
       [0.5; 0.25; 0.125; 0.125]%float /\
   Fixtures.loud_distribution !! "Happy"%string = Some 0.5%float) /\
  (exists label confidence distribution,
     emotion_predictor.predict (Fixtures.world_no_proba 82)
       (Fixtures.predictor_of Fixtures.classifier_no_proba 82) "happy.wav"
     = Ok (label, confidence, distribution) /\
     confidence = None /\ distribution = ∅).
Proof.
  split.
  - assert (emotion_predictor.predict (Fixtures.world 82)
              (Fixtures.predictor_of Fixtures.classifier 82) "happy.wav"
            = Ok ("Happy"%string, Some 0.5%float, Fixtures.loud_distribution)) as H
      by (vm_compute; reflexivity).
    split; [exact H|]. split; [reflexivity|].
    destruct (predict_result _ _ _ _ _ _ H)
      as (? & ? & ? & ? & ? & ? & ? & ? & ? & ? & ? & ? & ? & Hproba).
    simpl in Hproba. destruct Hproba as (? & ? & ? & p & ? & ? & ? & ? & ? & ? & Hc & Hp).
    rewrite Hc. exact Hp.
  - exists "Happy"%string, None, ∅.
    assert (emotion_predictor.predict (Fixtures.world_no_proba 82)
              (Fixtures.predictor_of Fixtures.classifier_no_proba 82) "happy.wav"
            = Ok ("Happy"%string, None, ∅)) as H
      by (vm_compute; reflexivity).
    split; [exact H|].
    destruct (predict_result _ _ _ _ _ _ H)
      as (? & ? & ? & ? & ? & ? & ? & ? & ? & ? & ? & ? & ? & Hnone).
    exact Hnone.
Defined.

(** ** The batch driver *)

Section Batch.
Import emotion_predictor.
Context (w : World).

Lemma predict_batch_loop_map (self : EmotionPredictor) (audio_paths : list string) :
  forall (results : list batch_entry) (error_lines : list string),
    (predict_batch_loop w self audio_paths results error_lines).1
    = results ++ map (entry_of w self) audio_paths.
Proof.
  induction audio_paths as [|path rest IH]; intros results error_lines; simpl.
  - rewrite app_nil_r. reflexivity.
  - pose proof (eq_refl (entry_of w self path)) as He. unfold entry_of at 2 in He.
    destruct (predict w self path) as [result|e];
      rewrite IH, <- app_assoc, He; reflexivity.
Qed.

Lemma predict_batch_map (self : EmotionPredictor) (audio_paths : list string) :
  (predict_batch w self audio_paths).1 = map (entry_of w self) audio_paths.
Proof. unfold predict_batch. rewrite predict_batch_loop_map. reflexivity. Qed.

(** C4.  [predict_batch] returns the list of the inputs' entries, in input
    order: it has the length of the input; the entry at a position is the
    prediction of the path at that position, or the failure marker
    [(None, None, {})] when that prediction raises; and a path whose
    prediction raises leaves the marker in its place between the results
    of the paths before and after it, which are those of the batches
    without it. *)
Theorem predict_batch_isolates_failures (self : EmotionPredictor)
    (audio_paths : list string) :
  (predict_batch w self audio_paths).1 = map (entry_of w self) audio_paths /\
  length (predict_batch w self audio_paths).1 = length audio_paths /\
  (forall (i : nat) (path : string),
     audio_paths !! i = Some path ->
     (predict_batch w self audio_paths).1 !! i
     = Some match predict w self path with
            | Ok (emotion, confidence, probabilities) =>
                (Some emotion, confidence, probabilities)
            | Err _ => (None, None, ∅)
            end) /\
  (forall (before after : list string) (bad : string) (e : exn),
     audio_paths = before ++ bad :: after ->
     predict w self bad = Err e ->
     (predict_batch w self audio_paths).1
     = (predict_batch w self before).1 ++ (None, None, ∅) :: (predict_batch w self after).1).
Proof.
  rewrite predict_batch_map. split; [reflexivity|]. split; [apply length_map|]. split.
  - intros i path Hi. rewrite list_lookup_fmap, Hi. simpl. unfold entry_of.
    destruct (predict w self path) as [[[emotion confidence] probabilities]|];
      reflexivity.
  - intros before after bad e -> Hbad. rewrite !predict_batch_map, map_app. simpl.
    replace (entry_of w self bad) with (None : option string, None : option float,
                                        ∅ : gmap string float)
      by (unfold entry_of; rewrite Hbad; reflexivity).
    reflexivity.
Qed.

End Batch.

Lemma predict_batch_isolates_failures_witness :
  (emotion_predictor.predict_batch (Fixtures.world 82)
     (Fixtures.predictor_of Fixtures.classifier 82)
     ["happy.wav"; "missing.wav"; "happy.wav"]%string).1
  = [(Some "Happy"%string, Some 0.5%float, Fixtures.loud_distribution);
     (None, None, ∅);
     (Some "Happy"%string, Some 0.5%float, Fixtures.loud_distribution)].
Proof.
  rewrite (proj1 (predict_batch_isolates_failures (Fixtures.world 82)
                    (Fixtures.predictor_of Fixtures.classifier 82)
                    ["happy.wav"; "missing.wav"; "happy.wav"]%string)).
  vm_compute. reflexivity.
Defined.

(** ** The bounded deque *)

Section Deque.
Context {A : Type}.

(** A deque made with [maxlen=n] never holds more than [n] items. *)
Lemma append_bounded (d : collections.deque A) (x : A) (n : nat) :
  collections.maxlen d = Some n ->
  (length (collections.items d) <= n)%nat ->
  collections.maxlen (collections.append d x) = Some n /\
  (length (collections.items (collections.append d x)) <= n)%nat.
Proof.
  intros Hmax Hlen. unfold collections.append. rewrite Hmax.
  destruct (Nat.eqb_spec n 0); [auto|].
  destruct (Nat.ltb_spec (length (collections.items d)) n); simpl;
    rewrite length_app, ?length_drop; simpl; split; try reflexivity; lia.
Qed.

(** Appending four items to [deque(maxlen=3)] leaves the last three, in
    the order of their insertion. *)
Lemma append_four (a b c d : A) :
  collections.items
    (collections.append
       (collections.append
          (collections.append (collections.append (collections.new 3) a) b) c) d)
  = [b; c; d].
Proof. reflexivity. Qed.

End Deque.

(** ** The live loop *)

Section Live.
Import emotion_predictor live_emotion_detector.
Context (w : World).

Lemma run_continuous_loop_self (mic : list np.array) :
  forall (self : LiveEmotionDetector) (iteration : Z) (trace : list event),
    (run_continuous_loop w self mic iteration trace).1.1 = self.
Proof.
  induction mic as [|audio mic IH]; intros self iteration trace; simpl; [reflexivity|].
  destruct (too_quiet audio) as [[|]|e]; [apply IH| |reflexivity].
  destruct (predict_from_audio w self audio) as [[[emotion confidence] probabilities]|e];
    [|reflexivity].
  destruct (display_raises w emotion confidence probabilities (iteration + 1));
    [reflexivity|apply IH].
Qed.

Lemma run_single_self (self : LiveEmotionDetector) (mic : list np.array) :
  (run_single w self mic).1.1 = self.
Proof.
  unfold run_single. destruct mic as [|audio mic]; simpl; [reflexivity|].
  destruct (too_quiet audio) as [[|]|e]; [reflexivity| |reflexivity].
  destruct (predict_from_audio w self audio) as [[[emotion confidence] probabilities]|e];
    [|reflexivity].
  destruct (display_raises w emotion confidence probabilities 1); reflexivity.
Qed.

(** C5, on the code.  Neither live mode pushes anything into
    [self.history]: whatever was recorded and displayed, the history of the
    detector after [run_single] or [run_continuous] is the history it had
    before, so the deque made empty by the constructor stays empty. *)
Theorem history_is_never_written (self after : LiveEmotionDetector)
    (mic : list np.array) (trace : list event) (out : outcome) :
  run_single w self mic = (after, trace, out) \/
  run_continuous w self mic = (after, trace, out) ->
  history after = history self.
Proof.
  intros [H|H].
  - pose proof (run_single_self self mic) as Hs. rewrite H in Hs. simpl in Hs.
    rewrite Hs. reflexivity.
  - pose proof (run_continuous_loop_self mic self 0 [Sleep 3]) as Hs.
    unfold run_continuous in H. rewrite H in Hs. simpl in Hs.
    rewrite Hs. reflexivity.
Qed.




(** C8, as amended.  On the live path, for a product
    [duration * sample_rate] that is not negative: a buffer longer than the
    product is cut to its first [duration * sample_rate] samples; a buffer
    that is not longer is left as it is, whatever its length; and the
    features are computed from that buffer. *)
Theorem clip_audio_truncates_only (self : LiveEmotionDetector) (audio : np.array) :
  0 <= duration self * sample_rate self ->
  (duration self * sample_rate self < Z.of_nat (length audio) ->
     clip_audio self audio = take (Z.to_nat (duration self * sample_rate self)) audio /\
     Z.of_nat (length (clip_audio self audio)) = duration self * sample_rate self) /\
  (Z.of_nat (length audio) <= duration self * sample_rate self ->
     clip_audio self audio = audio) /\
  extract_features_from_audio w self audio
  = compute_features w (clip_audio self audio) (sample_rate self).
Proof.
  intros Hnonneg. unfold clip_audio, slice_to. split; [|split].
  - intros Hlong.
    destruct (Z.gtb_spec (Z.of_nat (length audio)) (duration self * sample_rate self));
      [|lia].
    destruct (Z.ltb_spec (duration self * sample_rate self) 0); [lia|].
    split; [reflexivity|]. rewrite length_take. lia.
  - intros Hshort.
    destruct (Z.gtb_spec (Z.of_nat (length audio)) (duration self * sample_rate self));
      [lia|reflexivity].
  - reflexivity.
Qed.

End Live.

Lemma history_is_never_written_witness :
  let run := live_emotion_detector.run_single (Fixtures.world 81)
               (Fixtures.detector_of 81) [Fixtures.loud] in
  run.1.2 = [live_emotion_detector.Sleep 3;
             live_emotion_detector.Recorded Fixtures.loud;
             live_emotion_detector.Printed "Recording complete. Analyzing...";
             live_emotion_detector.Predict Fixtures.loud;
             live_emotion_detector.Display "Happy" (Some 0.5%float)
               Fixtures.loud_distribution 1] /\
  run.2 = live_emotion_detector.Returned /\
  collections.items (live_emotion_detector.history run.1.1) = [].
Proof.
  intros run. split; [vm_compute; reflexivity|]. split; [vm_compute; reflexivity|].
  rewrite (history_is_never_written (Fixtures.world 81) (Fixtures.detector_of 81)
             run.1.1 [Fixtures.loud] run.1.2 run.2).
  - reflexivity.
  - left. vm_compute. reflexivity.
Defined.



Lemma clip_audio_truncates_only_witness :
  live_emotion_detector.clip_audio Fixtures.short_detector Fixtures.loud
  = [0.5; -0.25]%float /\
  live_emotion_detector.clip_audio Fixtures.short_detector [0.5%float] = [0.5%float].
Proof.
  pose proof (clip_audio_truncates_only (Fixtures.world 81) Fixtures.short_detector
                Fixtures.loud) as Hlong.
  pose proof (clip_audio_truncates_only (Fixtures.world 81) Fixtures.short_detector
                [0.5%float]) as Hshort.
  split.
  - apply Hlong; vm_compute; [discriminate|reflexivity].
  - apply Hshort; vm_compute; discriminate.
Defined.

(** C8, as stated, fails: a three-sample buffer handed to a detector that
    analyses 3 s at 22050 Hz reaches the feature computation with its three
    samples, not padded to 66150. *)
Lemma short_buffer_is_not_padded :
  let self := Fixtures.detector_of 81 in
  live_emotion_detector.clip_audio self Fixtures.loud = Fixtures.loud /\
  ~ (Z.of_nat (length (live_emotion_detector.clip_audio self Fixtures.loud))
     = live_emotion_detector.duration self * live_emotion_detector.sample_rate self) /\
  live_emotion_detector.extract_features_from_audio (Fixtures.world 81) self Fixtures.loud
  = compute_features (Fixtures.world 81) Fixtures.loud 22050.
Proof.
  split; [reflexivity|]. split; [vm_compute; discriminate|reflexivity].
Qed.

(** ** Construction and startup *)

Section Startup.
Import emotion_predictor.
Context (w : World).

(** C9.  The constructor raises [FileNotFoundError] with the message
    "Model not found at <model_path>" when the model path does not exist,
    and "Scaler not found at <scaler_path>" when the model path exists and
    the scaler path does not; when both exist and load, it records the
    scaler's [n_features_in_] as [expected_features]; and when the
    constructor raises at the start of the demo's [main], the process
    ends by [sys.exit(1)]. *)
Theorem construction_and_startup (model_path scaler_path : string) :
  (os_path_exists w model_path = false ->
     __init__ w model_path scaler_path
     = Err (Raise FileNotFoundError ("Model not found at " +:+ model_path))) /\
  (os_path_exists w model_path = true -> os_path_exists w scaler_path = false ->
     __init__ w model_path scaler_path
     = Err (Raise FileNotFoundError ("Scaler not found at " +:+ scaler_path))) /\
  (forall (loaded_model loaded_scaler : sklearn.Estimator) (n : Z),
     os_path_exists w model_path = true -> os_path_exists w scaler_path = true ->
     joblib_load w model_path = Ok loaded_model ->
     joblib_load w scaler_path = Ok loaded_scaler ->
     sklearn.n_features_in_ loaded_scaler = Some n ->
     __init__ w model_path scaler_path
     = Ok {| model := loaded_model; scaler := loaded_scaler;
             expected_features := n; emotion_map := RAVDESS |}) /\
  (forall self : EmotionPredictor,
     __init__ w model_path scaler_path = Ok self ->
     joblib_load w scaler_path = Ok (scaler self) /\
     sklearn.n_features_in_ (scaler self) = Some (expected_features self)) /\
  (forall (argv stdin : list string) (e : exn),
     __init__ w "artifacts/svm_model.pkl" "artifacts/standard_scaler.pkl" = Err e ->
     (demo_script.main w argv stdin).2 = demo_script.Exit 1 /\
     demo_script.exit_code (demo_script.main w argv stdin).2 = Some 1).
Proof.
  assert (forall self : EmotionPredictor,
            __init__ w model_path scaler_path = Ok self ->
            exists loaded_scaler,
              joblib_load w scaler_path = Ok loaded_scaler /\
              scaler self = loaded_scaler /\
              sklearn.n_features_in_ loaded_scaler = Some (expected_features self))
    as Hrecorded.
  { intros self. unfold __init__.
    destruct (os_path_exists w model_path); simpl; [|discriminate].
    destruct (os_path_exists w scaler_path); simpl; [|discriminate].
    destruct (joblib_load w model_path); simpl; [|discriminate].
    destruct (joblib_load w scaler_path) as [s|]; simpl; [|discriminate].
    destruct (sklearn.n_features_in_ s) eqn:Hn; simpl; [|discriminate].
    intros [= <-]. exists s. auto. }
  split; [|split; [|split; [|split]]].
  - unfold __init__. intros ->. reflexivity.
  - unfold __init__. intros -> ->. reflexivity.
  - unfold __init__. intros m s n -> -> Hm Hs Hn. simpl.
    rewrite Hm, Hs. simpl. rewrite Hn. reflexivity.
  - intros self Hself. apply Hrecorded in Hself as (s & Hs & <- & Hn). auto.
  - intros argv stdin e He. unfold demo_script.main. rewrite He.
    destruct (demo_script.is_FileNotFoundError e); split; reflexivity.
Qed.

(** The live detector's [main] does not exit with a status of its own when
    the constructor raises: it reports the error and returns. *)
Lemma live_main_returns_on_failure (choice : string) (mic : list np.array) (e : exn) :
  live_emotion_detector.__init__ w
    "artifacts/svm_model.pkl" "artifacts/standard_scaler.pkl" 3 22050 = Err e ->
  live_emotion_detector.main w choice mic
  = ([live_emotion_detector.Printed ("Error initializing detector: " +:+ str e)],
     live_emotion_detector.Returned).
Proof. intros H. unfold live_emotion_detector.main. rewrite H. reflexivity. Qed.

End Startup.

Lemma construction_and_startup_witness :
  emotion_predictor.__init__ Fixtures.world_without_scaler
    "artifacts/svm_model.pkl" "artifacts/standard_scaler.pkl"
  = Err (Raise FileNotFoundError "Scaler not found at artifacts/standard_scaler.pkl") /\
  (demo_script.main Fixtures.world_without_scaler ["demo_script.py"; "happy.wav"]%string []).2
  = demo_script.Exit 1 /\
  (exists self,
     emotion_predictor.__init__ (Fixtures.world 82)
       "artifacts/svm_model.pkl" "artifacts/standard_scaler.pkl" = Ok self /\
     emotion_predictor.expected_features self = 82).
Proof.
  pose proof (construction_and_startup Fixtures.world_without_scaler
                "artifacts/svm_model.pkl" "artifacts/standard_scaler.pkl")
    as (_ & Hscaler & _ & _ & Hexit).
  pose proof (construction_and_startup (Fixtures.world 82)
                "artifacts/svm_model.pkl" "artifacts/standard_scaler.pkl")
    as (_ & _ & Hok & _ & _).
  split; [apply Hscaler; reflexivity|].
  split; [eapply Hexit, Hscaler; reflexivity|].
  eexists. split; [apply Hok; reflexivity|reflexivity].
Defined.

(** ** The two extraction paths *)

Section Extraction.
Import emotion_predictor live_emotion_detector.
Context (w : World).

(** The two paths compute the same 81 scalars from the same buffer, as
    long as the live path does not cut it. *)
Lemma live_and_file_features_agree (self : LiveEmotionDetector) (audio_path : string)
    (y : np.array) :
  os_path_exists w audio_path = true ->
  librosa_load w audio_path (sample_rate self) 3%float = Ok (y, sample_rate self) ->
  Z.of_nat (length y) <= live_emotion_detector.duration self * sample_rate self ->
  extract_features w (predictor self) audio_path (sample_rate self) 3%float
  = try_except
      (extract_features_from_audio w self y ≫= fix_feature_count (predictor self))
      (fun e => Err (Raise Exception ("Feature extraction failed: " +:+ str e))).
Proof.
  intros Hex Hload Hlen. unfold extract_features, extract_features_from_audio, clip_audio.
  rewrite Hex, Hload. simpl.
  destruct (Z.gtb_spec (Z.of_nat (length y))
              (live_emotion_detector.duration self * sample_rate self)); [lia|].
  reflexivity.
Qed.

End Extraction.

(** ** The two paths against a scaler fitted on 82 columns *)

(** With the scaler the padding of [extract_features] was written for, the
    file path predicts and the live path hands the scaler a row of 81
    columns, which the scaler refuses. *)
Example live_prediction_against_82_columns :
  emotion_predictor.predict (Fixtures.world 82)
    (Fixtures.predictor_of Fixtures.classifier 82) "happy.wav"
  = Ok ("Happy"%string, Some 0.5%float, Fixtures.loud_distribution) /\
  live_emotion_detector.predict_from_audio (Fixtures.world 82)
    (Fixtures.detector_of 82) Fixtures.loud
  = Err (Raise ValueError "StandardScaler is expecting 82 features as input.").
Proof. split; vm_compute; reflexivity. Qed.

(** * Further properties of the code *)

(** ** Feature extraction from a file *)

Section FileExtraction.
Import emotion_predictor.
Context (w : World).

(** A path that does not exist: [extract_features] raises
    [FileNotFoundError] naming the path, outside the [try], so the class
    survives; [predict] raises the same; the batch driver records the marker
    and prints one line with the path and the message. *)
Theorem missing_audio_file (self : EmotionPredictor) (audio_path : string) :
  os_path_exists w audio_path = false ->
  (forall (sr : Z) (duration : float),
     extract_features w self audio_path sr duration
     = Err (Raise FileNotFoundError ("Audio file not found: " +:+ audio_path))) /\
  predict w self audio_path
  = Err (Raise FileNotFoundError ("Audio file not found: " +:+ audio_path)) /\
  predict_batch w self [audio_path]
  = ([(None, None, ∅)],
     ["Error processing " +:+ audio_path +:+ ": Audio file not found: " +:+ audio_path]).
Proof.
  intros Hex.
  assert (forall sr duration,
            extract_features w self audio_path sr duration
            = Err (Raise FileNotFoundError ("Audio file not found: " +:+ audio_path))) as H.
  { intros sr duration. unfold extract_features. rewrite Hex. reflexivity. }
  split; [exact H|].
  assert (predict w self audio_path
          = Err (Raise FileNotFoundError ("Audio file not found: " +:+ audio_path))) as Hp.
  { unfold predict. rewrite H. reflexivity. }
  split; [exact Hp|].
  unfold predict_batch. simpl. rewrite Hp. reflexivity.
Qed.

(** Whatever [extract_features] returns is the vector the kernels computed
    from the decoded buffer, followed by at most two zeros: no computed
    scalar is changed, dropped or moved, and the result has the length the
    scaler expects. *)
Theorem extract_features_keeps_computed (self : EmotionPredictor) (audio_path : string)
    (sr : Z) (duration : float) (v : np.array) :
  extract_features w self audio_path sr duration = Ok v ->
  exists (y : np.array) (sr' : Z) (features : np.array) (k : nat),
    os_path_exists w audio_path = true /\
    librosa_load w audio_path sr duration = Ok (y, sr') /\
    compute_features w y sr' = Ok features /\
    v = features ++ np.zeros k /\ (k <= 2)%nat /\
    Z.of_nat (length v) = expected_features self.
Proof.
  unfold extract_features.
  destruct (os_path_exists w audio_path) eqn:Hex; simpl; [|discriminate].
  destruct (librosa_load w audio_path sr duration) as [[y sr']|] eqn:Hload;
    simpl; [|discriminate].
  destruct (compute_features w y sr') as [features|] eqn:Hfeat; simpl; [|discriminate].
  destruct (fix_feature_count self features) as [v'|] eqn:Hfix; simpl; [|discriminate].
  intros [= <-]. apply fix_feature_count_Ok in Hfix as (Hlen & Hcases).
  exists y, sr', features.
  destruct Hcases as [(_ & ->)|[(_ & _ & ->)|(_ & _ & ->)]].
  - exists 0%nat. unfold np.zeros. simpl. rewrite app_nil_r. auto 10.
  - exists 1%nat. auto 10.
  - exists 2%nat. auto 10.
Qed.

End FileExtraction.

Lemma missing_audio_file_witness :
  emotion_predictor.predict_batch (Fixtures.world 82)
    (Fixtures.predictor_of Fixtures.classifier 82) ["missing.wav"%string]
  = ([(None, None, ∅)],
     ["Error processing missing.wav: Audio file not found: missing.wav"%string]).
Proof.
  exact (proj2 (proj2 (missing_audio_file (Fixtures.world 82)
                         (Fixtures.predictor_of Fixtures.classifier 82)
                         "missing.wav" eq_refl))).
Defined.

Lemma extract_features_keeps_computed_witness :
  exists (y : np.array) (sr' : Z) (features : np.array) (k : nat),
    os_path_exists (Fixtures.world 83) "happy.wav" = true /\
    librosa_load (Fixtures.world 83) "happy.wav" 22050 3%float = Ok (y, sr') /\
    compute_features (Fixtures.world 83) y sr' = Ok features /\
    Fixtures.loud_features ++ [0%float; 0%float] = features ++ np.zeros k /\
    (k <= 2)%nat /\
    Z.of_nat (length (Fixtures.loud_features ++ [0%float; 0%float])) = 83.
Proof.
  apply (extract_features_keeps_computed (Fixtures.world 83)
           (Fixtures.predictor_of Fixtures.classifier 83) "happy.wav" 22050 3%float).
  vm_compute. reflexivity.
Defined.

Lemma extract_features_returns_witness :
  exists v : np.array,
    emotion_predictor.extract_features (Fixtures.world 83)
      (Fixtures.predictor_of Fixtures.classifier 83) "happy.wav" 22050 3%float = Ok v /\
    Z.of_nat (length v) = 83 /\
    take 81 v = Fixtures.loud_features.
Proof.
  apply (extract_features_returns (Fixtures.world 83)
           (Fixtures.predictor_of Fixtures.classifier 83) "happy.wav" 22050 3%float
           Fixtures.loud 22050 Fixtures.loud_features).
  - apply world_shapes.
  - reflexivity.
  - reflexivity.
  - vm_compute. reflexivity.
  - vm_compute. split; discriminate.
Defined.

(** ** The batch driver, further *)

Section BatchFurther.
Import emotion_predictor.
Context (w : World).

Lemma predict_batch_loop_acc (self : EmotionPredictor) (audio_paths : list string) :
  forall (results : list batch_entry) (error_lines : list string),
    predict_batch_loop w self audio_paths results error_lines
    = (results ++ (predict_batch w self audio_paths).1,
       error_lines ++ (predict_batch w self audio_paths).2).
Proof.
  unfold predict_batch.
  induction audio_paths as [|path rest IH]; intros results error_lines; simpl.
  - rewrite !app_nil_r. reflexivity.
  - destruct (predict w self path) as [result|e].
    + rewrite (IH (results ++ _)), (IH [as_entry result]). simpl.
      rewrite <- app_assoc. reflexivity.
    + rewrite (IH (results ++ _)), (IH [failure_marker]). simpl.
      rewrite <- !app_assoc. reflexivity.
Qed.

Lemma predict_batch_concat (self : EmotionPredictor) (first second : list string) :
  predict_batch w self (first ++ second)
  = ((predict_batch w self first).1 ++ (predict_batch w self second).1,
     (predict_batch w self first).2 ++ (predict_batch w self second).2).
Proof.
  induction first as [|path rest IH]; simpl.
  - destruct (predict_batch w self second). reflexivity.
  - unfold predict_batch at 1 2 4. simpl.
    destruct (predict w self path) as [result|e];
      rewrite !predict_batch_loop_acc, IH; simpl; reflexivity.
Qed.

(** A batch over a concatenation is the concatenation of the batches, for the
    results and for what is printed: no item's outcome depends on the items
    around it, and splitting a batch in two changes nothing. *)
Theorem predict_batch_app (self : EmotionPredictor) (first second : list string) :
  (predict_batch w self (first ++ second)).1
  = (predict_batch w self first).1 ++ (predict_batch w self second).1 /\
  (predict_batch w self (first ++ second)).2
  = (predict_batch w self first).2 ++ (predict_batch w self second).2.
Proof. rewrite predict_batch_concat. split; reflexivity. Qed.

(** The failure markers of a batch are the entries of the paths whose
    prediction raised, and only those: a prediction that returns never looks
    like a failure, so the number of markers in the result is the number of
    paths that failed. *)
Theorem predict_batch_marks_failures (self : EmotionPredictor)
    (audio_paths : list string) :
  (forall (i : nat) (path : string) (entry : batch_entry),
     audio_paths !! i = Some path ->
     (predict_batch w self audio_paths).1 !! i = Some entry ->
     (is_failure entry = true <-> exists e, predict w self path = Err e)) /\
  length (filter (fun entry => is_failure entry = true)
            (predict_batch w self audio_paths).1)
  = length (omap (fun path => match predict w self path with
                              | Ok _ => None
                              | Err e => Some e
                              end) audio_paths).
Proof.
  split.
  - intros i path entry Hpath Hentry.
    rewrite predict_batch_map, list_lookup_fmap, Hpath in Hentry.
    injection Hentry as <-. unfold entry_of.
    destruct (predict w self path) as [[[emotion confidence] probabilities]|e]; simpl.
    + split; [discriminate|]. intros [e He]. discriminate.
    + split; eauto.
  - induction audio_paths as [|path rest IH]; [reflexivity|].
    change (path :: rest) with ([path] ++ rest).
    rewrite predict_batch_concat, omap_app. simpl.
    rewrite filter_app, !length_app, <- IH. f_equal.
    unfold predict_batch. simpl.
    destruct (predict w self path) as [[[emotion confidence] probabilities]|e];
      reflexivity.
Qed.

End BatchFurther.

(** ** The label table *)

Lemma RAVDESS_lookup (class_id : Z) (label : string) :
  emotion_predictor.RAVDESS !! class_id = Some label ->
  1 <= class_id <= 8 /\ label ∈ canonical_labels.
Proof.
  intros H. apply elem_of_list_to_map_2 in H.
  unfold canonical_labels.
  repeat (apply elem_of_cons in H as [H|H];
          [injection H as -> ->; split; [lia|set_solver]|]).
  apply elem_of_nil in H. contradiction.
Qed.

Lemma RAVDESS_outside (class_id : Z) :
  class_id < 1 \/ 8 < class_id ->
  emotion_predictor.RAVDESS !! class_id = None.
Proof.
  intros H. apply not_elem_of_list_to_map_1. simpl.
  rewrite !elem_of_cons, elem_of_nil. lia.
Qed.

Lemma RAVDESS_injective (c1 c2 : Z) (label : string) :
  emotion_predictor.RAVDESS !! c1 = Some label ->
  emotion_predictor.RAVDESS !! c2 = Some label ->
  c1 = c2.
Proof.
  intros H1 H2. apply elem_of_list_to_map_2 in H1, H2.
  rewrite !elem_of_cons, elem_of_nil in H1, H2.
  destruct_or!; simplify_eq; reflexivity || contradiction.
Qed.

(** ** Prediction, further *)

Section PredictionFurther.
Import emotion_predictor.
Context (w : World).

Lemma init_emotion_map (model_path scaler_path : string) (self : EmotionPredictor) :
  __init__ w model_path scaler_path = Ok self -> emotion_map self = RAVDESS.
Proof.
  unfold __init__.
  destruct (os_path_exists w model_path); simpl; [|discriminate].
  destruct (os_path_exists w scaler_path); simpl; [|discriminate].
  destruct (joblib_load w model_path); simpl; [|discriminate].
  destruct (joblib_load w scaler_path) as [s|]; simpl; [|discriminate].
  destruct (sklearn.n_features_in_ s); simpl; [|discriminate].
  intros [= <-]. reflexivity.
Qed.

(** The labels under which a zip enters its pairs come from the table. *)
Lemma fold_enter_keys (emotion_map : gmap Z string) (pairs : list (Z * float)) :
  forall (acc : gmap string float) (name : string),
    is_Some (fold_left (enter emotion_map) pairs acc !! name) ->
    is_Some (acc !! name) \/ exists class_id, emotion_map !! class_id = Some name.
Proof.
  induction pairs as [|[class_id prob] rest IH]; intros acc name H; simpl in H; [auto|].
  apply IH in H as [H|H]; [|auto]. unfold enter in H.
  destruct (emotion_map !! class_id) as [label|] eqn:Hl; [|auto].
  destruct (decide (label = name)) as [->|Hne]; [eauto|].
  rewrite lookup_insert_ne in H by assumption. auto.
Qed.

(** [predict], once the label is found: what is left is the probability
    part. *)
Lemma predict_after_label (self : EmotionPredictor) (audio_path : string)
    (features : np.array) (scaled : np.matrix) scaler_transform model_predict
    (ids : list Z) (emotion_id : Z) :
  extract_features w self audio_path 22050 3%float = Ok features ->
  sklearn.transform (scaler self) = Some scaler_transform ->
  scaler_transform [features] = Ok scaled ->
  sklearn.predict (model self) = Some model_predict ->
  model_predict scaled = Ok ids -> ids !! 0%nat = Some emotion_id ->
  predict w self audio_path =
    emotion_label ← dict_getitem str_int (emotion_map self) emotion_id;
    match sklearn.predict_proba (model self) with
    | Some model_predict_proba =>
        probs ← model_predict_proba scaled ≫= (fun rows => getitem rows 0);
        probabilities ← map_probabilities (model self) (emotion_map self) 0 probs ∅;
        confidence ← dict_getitem repr_str probabilities emotion_label;
        Ok (emotion_label, Some confidence, probabilities)
    | None => Ok (emotion_label, None, ∅)
    end.
Proof.
  intros Hfeat Htr Hscaled Hpr Hids Hid.
  unfold predict. rewrite Hfeat. simpl. unfold classify, np.reshape_row.
  rewrite Htr, Hpr. simpl. rewrite Hscaled. simpl. rewrite Hids. simpl.
  unfold getitem. rewrite Hid. reflexivity.
Qed.

(** Where the label and the keys of a returned distribution come from: the
    predictor's label table. *)
Lemma predict_labels (self : EmotionPredictor) (audio_path : string)
    (label : string) (confidence : option float) (distribution : gmap string float) :
  predict w self audio_path = Ok (label, confidence, distribution) ->
  exists emotion_id : Z,
    emotion_map self !! emotion_id = Some label /\
    forall name : string,
      is_Some (distribution !! name) ->
      exists class_id, emotion_map self !! class_id = Some name.
Proof.
  intros H. unfold predict in H.
  apply bind_Ok in H as (features & _ & H). unfold classify in H.
  apply bind_Ok in H as (tr & _ & H).
  apply bind_Ok in H as (scaled & _ & H).
  apply bind_Ok in H as (pr & _ & H).
  apply bind_Ok in H as (emotion_id & _ & H).
  apply bind_Ok in H as (label' & Hlabel & H). apply dict_getitem_Ok in Hlabel.
  exists emotion_id.
  destruct (sklearn.predict_proba (model self)) as [proba|].
  - apply bind_Ok in H as (probs & _ & H).
    apply bind_Ok in H as (d & Hd & H).
    apply bind_Ok in H as (p & _ & H).
    injection H as -> <- <-. split; [assumption|].
    apply map_probabilities_Ok in Hd as (-> & _ & _).
    intros name Hname. apply fold_enter_keys in Hname as [Hname|Hname]; [|assumption].
    rewrite lookup_empty in Hname. destruct Hname; discriminate.
  - injection H as -> <- <-. split; [assumption|].
    intros name Hname. rewrite lookup_empty in Hname. destruct Hname; discriminate.
Qed.

(** A predictor built by the constructor only ever answers with one of the
    eight RAVDESS labels, and every key of the distribution it returns is
    one of them. *)
Theorem prediction_labels_are_canonical (model_path scaler_path : string)
    (self : EmotionPredictor) (audio_path : string)
    (label : string) (confidence : option float) (distribution : gmap string float) :
  __init__ w model_path scaler_path = Ok self ->
  predict w self audio_path = Ok (label, confidence, distribution) ->
  label ∈ canonical_labels /\
  (forall name : string, is_Some (distribution !! name) -> name ∈ canonical_labels).
Proof.
  intros Hinit H. apply init_emotion_map in Hinit.
  apply predict_labels in H as (id & Hlabel & Hkeys). rewrite Hinit in *.
  split; [apply (RAVDESS_lookup id), Hlabel|].
  intros name Hname. apply Hkeys in Hname as [class_id Hc].
  apply (RAVDESS_lookup class_id), Hc.
Qed.

(** A classifier that predicts a class outside 1..8 makes a constructed
    predictor raise [KeyError] with that class, before any probability is
    asked for. *)
Theorem unknown_class_raises (model_path scaler_path : string)
    (self : EmotionPredictor) (audio_path : string)
    (features : np.array) (scaled : np.matrix) scaler_transform model_predict
    (ids : list Z) (emotion_id : Z) :
  __init__ w model_path scaler_path = Ok self ->
  extract_features w self audio_path 22050 3%float = Ok features ->
  sklearn.transform (scaler self) = Some scaler_transform ->
  scaler_transform [features] = Ok scaled ->
  sklearn.predict (model self) = Some model_predict ->
  model_predict scaled = Ok ids -> ids !! 0%nat = Some emotion_id ->
  emotion_id < 1 \/ 8 < emotion_id ->
  predict w self audio_path = Err (Raise KeyError (str_int emotion_id)).
Proof.
  intros Hinit Hfeat Htr Hscaled Hpr Hids Hid Hout.
  rewrite (predict_after_label self audio_path features scaled scaler_transform
             model_predict ids emotion_id) by assumption.
  apply init_emotion_map in Hinit. rewrite Hinit.
  unfold dict_getitem. rewrite (RAVDESS_outside _ Hout). reflexivity.
Qed.

(** A pair of the zip is not touched by pairs whose classes have other
    labels. *)
Lemma fold_enter_other (emotion_map : gmap Z string) (pairs : list (Z * float))
    (name : string) :
  (forall class_id, class_id ∈ pairs.*1 -> emotion_map !! class_id <> Some name) ->
  forall acc : gmap string float,
    fold_left (enter emotion_map) pairs acc !! name = acc !! name.
Proof.
  induction pairs as [|[class_id prob] rest IH]; intros Hother acc; simpl; [reflexivity|].
  rewrite IH by (intros c Hin; apply Hother; simpl; apply elem_of_cons; auto).
  unfold enter. destruct (emotion_map !! class_id) as [label|] eqn:Hl; [|reflexivity].
  apply lookup_insert_ne. intros ->.
  apply (Hother class_id); [simpl; apply elem_of_cons; auto|assumption].
Qed.

Lemma fold_enter_lookup (emotion_map : gmap Z string) (pairs : list (Z * float)) :
  (forall c1 c2 name, emotion_map !! c1 = Some name -> emotion_map !! c2 = Some name ->
                      c1 = c2) ->
  NoDup pairs.*1 ->
  forall (acc : gmap string float) (i : nat) (class_id : Z) (prob : float) (name : string),
    pairs !! i = Some (class_id, prob) ->
    emotion_map !! class_id = Some name ->
    fold_left (enter emotion_map) pairs acc !! name = Some prob.
Proof.
  intros Hinj. induction pairs as [|[c0 p0] rest IH];
    intros Hnodup acc i class_id prob name Hi Hname; [discriminate|].
  simpl in Hnodup. apply NoDup_cons in Hnodup as [Hfresh Hnodup]. simpl.
  destruct i as [|i]; simpl in Hi.
  - injection Hi as -> ->. rewrite fold_enter_other.
    + unfold enter. rewrite Hname. apply lookup_insert_eq.
    + intros c Hc Hcname. rewrite (Hinj _ _ _ Hcname Hname) in Hc. contradiction.
  - eapply IH; eassumption.
Qed.

Lemma fst_zip_take (classes : list Z) (probs : np.array) :
  (zip classes probs).*1 = take (length probs) classes.
Proof.
  revert probs. induction classes as [|c classes IH]; intros [|p probs]; simpl;
    try reflexivity.
  f_equal. apply IH.
Qed.

(** The loop of [predict] on a classifier whose fitted classes are distinct:
    the distribution holds, under the label of the class at each position,
    the probability at that position. *)
Theorem probabilities_follow_classes (model : sklearn.Estimator) (classes : list Z)
    (probs : np.array) (probabilities : gmap string float) :
  sklearn.classes_ model = Some classes ->
  NoDup classes ->
  map_probabilities model RAVDESS 0 probs ∅ = Ok probabilities ->
  forall (i : nat) (class_id : Z) (prob : float),
    classes !! i = Some class_id -> probs !! i = Some prob ->
    exists name : string,
      RAVDESS !! class_id = Some name /\ probabilities !! name = Some prob.
Proof.
  intros Hc Hnodup H i class_id prob Hi Hp.
  apply map_probabilities_Ok in H as (-> & Hlen & Hall).
  rewrite Hc in *. simpl in *. rewrite drop_0 in *.
  assert (i < length probs)%nat as Hlt by (apply lookup_lt_Some in Hp; assumption).
  assert (is_Some (RAVDESS !! class_id)) as [name Hname].
  { rewrite Forall_forall in Hall. apply Hall.
    apply (list_elem_of_lookup_2 _ i). rewrite lookup_take_lt by assumption.
    assumption. }
  exists name. split; [assumption|].
  apply (fold_enter_lookup RAVDESS _ RAVDESS_injective) with (i := i) (class_id := class_id).
  - rewrite fst_zip_take. apply (sublist_NoDup _ classes); [assumption|apply sublist_take].
  - apply lookup_zip_with_Some. eauto.
  - assumption.
Qed.

(** More probabilities than fitted classes: the loop raises [IndexError]. *)
Theorem more_probabilities_than_classes (model : sklearn.Estimator)
    (emotion_map : gmap Z string) (classes : list Z) (probs : np.array) :
  sklearn.classes_ model = Some classes ->
  Forall (fun class_id => is_Some (emotion_map !! class_id)) classes ->
  forall (idx : nat) (acc : gmap string float),
    (length classes < idx + length probs)%nat ->
    (0 < length probs)%nat ->
    map_probabilities model emotion_map idx probs acc
    = Err (Raise IndexError "index out of range").
Proof.
  intros Hc Hall. induction probs as [|prob rest IH]; intros idx acc Hlen Hpos;
    simpl in *; [lia|].
  rewrite Hc. simpl. unfold getitem.
  destruct (classes !! idx) as [class_id|] eqn:Hi; simpl; [|reflexivity].
  rewrite Forall_forall in Hall.
  destruct (Hall class_id (list_elem_of_lookup_2 _ _ _ Hi)) as [name Hname].
  unfold dict_getitem. rewrite Hname. simpl.
  apply lookup_lt_Some in Hi.
  apply IH; [lia|]. destruct rest; simpl in *; lia.
Qed.

End PredictionFurther.

Lemma prediction_labels_are_canonical_witness :
  "Happy"%string ∈ canonical_labels /\
  (forall name : string,
     is_Some (Fixtures.loud_distribution !! name) -> name ∈ canonical_labels).
Proof.
  apply (prediction_labels_are_canonical (Fixtures.world 82)
           Fixtures.model_path Fixtures.scaler_path
           (Fixtures.predictor_of Fixtures.classifier 82) "happy.wav"
           "Happy" (Some 0.5%float) Fixtures.loud_distribution).
  - reflexivity.
  - vm_compute. reflexivity.
Defined.

Lemma unknown_class_raises_witness :
  emotion_predictor.predict
    (Fixtures.world_with Fixtures.all_files Scenarios.classifier_class_9 81)
    (Fixtures.predictor_of Scenarios.classifier_class_9 81) "happy.wav"
  = Err (Raise KeyError "9").
Proof.
  apply (unknown_class_raises
           (Fixtures.world_with Fixtures.all_files Scenarios.classifier_class_9 81)
           Fixtures.model_path Fixtures.scaler_path
           (Fixtures.predictor_of Scenarios.classifier_class_9 81) "happy.wav"
           Fixtures.loud_features [Fixtures.loud_features]
           (fun m => if forallb (fun row => Z.of_nat (length row) =? 81) m then Ok m
                     else Err (Raise ValueError
                                 ("StandardScaler is expecting " +:+ str_int 81
                                    +:+ " features as input.")))
           (fun _ => Ok [9]) [9] 9).
  - reflexivity.
  - vm_compute. reflexivity.
  - reflexivity.
  - vm_compute. reflexivity.
  - reflexivity.
  - reflexivity.
  - reflexivity.
  - right. lia.
Defined.

Lemma probabilities_follow_classes_witness :
  exists name : string,
    emotion_predictor.RAVDESS !! 1 = Some name /\
    Fixtures.loud_distribution !! name = Some 0.25%float.
Proof.
  apply (probabilities_follow_classes Fixtures.classifier [3; 1; 5; 4]
           [0.5; 0.25; 0.125; 0.125]%float Fixtures.loud_distribution eq_refl)
    with (i := 1%nat).
  - repeat (apply NoDup_cons; split; [rewrite ?elem_of_cons, elem_of_nil; lia|]).
    apply NoDup_nil. exact I.
  - vm_compute. reflexivity.
  - reflexivity.
  - reflexivity.
Defined.

Lemma more_probabilities_than_classes_witness :
  emotion_predictor.map_probabilities Scenarios.classifier_long_proba
    emotion_predictor.RAVDESS 0 [0.5; 0.125; 0.125; 0.125; 0.125]%float ∅
  = Err (Raise IndexError "index out of range").
Proof.
  apply (more_probabilities_than_classes Scenarios.classifier_long_proba
           emotion_predictor.RAVDESS [3; 1; 5; 4]).
  - reflexivity.
  - repeat (apply Forall_cons; split; [eexists; reflexivity|]). apply Forall_nil. exact I.
  - simpl. lia.
  - simpl. lia.
Defined.

(** ** The file path and the live path *)

Section BothPaths.
Import emotion_predictor live_emotion_detector.
Context (w : World).

(** With a scaler fitted on 81 columns, a file that decodes to a buffer no
    longer than the detector's window is predicted by [predict] exactly as
    the buffer is by [predict_from_audio]: every result of one is the result
    of the other. *)
Theorem file_and_live_predictions_agree (self : LiveEmotionDetector)
    (audio_path : string) (y : np.array) (r : prediction) :
  LibrosaShapes w ->
  expected_features (predictor self) = 81 ->
  sample_rate self = 22050 ->
  os_path_exists w audio_path = true ->
  librosa_load w audio_path 22050 3%float = Ok (y, 22050) ->
  Z.of_nat (length y) <= live_emotion_detector.duration self * sample_rate self ->
  predict_from_audio w self y = Ok r <-> predict w (predictor self) audio_path = Ok r.
Proof.
  intros Hw He Hsr Hex Hload Hlen.
  unfold predict_from_audio, predict, extract_features_from_audio, clip_audio,
    extract_features.
  rewrite Hex, Hload, Hsr in *. simpl.
  destruct (Z.gtb_spec (Z.of_nat (length y))
              (live_emotion_detector.duration self * 22050)); [lia|].
  destruct (compute_features w y 22050) as [features|e] eqn:Hfeat; simpl.
  - rewrite fix_feature_count_same; [reflexivity|].
    rewrite (compute_features_length w _ _ _ Hw Hfeat). lia.
  - split; discriminate.
Qed.

End BothPaths.

Lemma file_and_live_predictions_agree_witness :
  live_emotion_detector.predict_from_audio (Fixtures.world 81) (Fixtures.detector_of 81)
    Fixtures.loud
  = Ok ("Happy"%string, Some 0.5%float, Fixtures.loud_distribution) /\
  emotion_predictor.predict (Fixtures.world 81)
    (Fixtures.predictor_of Fixtures.classifier 81) "happy.wav"
  = Ok ("Happy"%string, Some 0.5%float, Fixtures.loud_distribution).
Proof.
  assert (live_emotion_detector.predict_from_audio (Fixtures.world 81)
            (Fixtures.detector_of 81) Fixtures.loud
          = Ok ("Happy"%string, Some 0.5%float, Fixtures.loud_distribution)) as H
    by (vm_compute; reflexivity).
  split; [exact H|].
  apply (file_and_live_predictions_agree (Fixtures.world 81) (Fixtures.detector_of 81)
           "happy.wav" Fixtures.loud).
  - apply world_shapes.
  - reflexivity.
  - reflexivity.
  - reflexivity.
  - reflexivity.
  - vm_compute. discriminate.
  - exact H.
Defined.

(** ** The live loop, further *)

Section LiveFurther.
Import emotion_predictor live_emotion_detector.
Context (w : World).

(** The trace the loop is started with is only ever extended. *)
Lemma run_continuous_loop_acc (self : LiveEmotionDetector) (mic : list np.array) :
  forall (iteration : Z) (trace : list event),
    run_continuous_loop w self mic iteration trace
    = (self,
       trace ++ (run_continuous_loop w self mic iteration []).1.2,
       (run_continuous_loop w self mic iteration []).2).
Proof.
  induction mic as [|audio mic IH]; intros iteration trace; simpl; [reflexivity|].
  destruct (too_quiet audio) as [[|]|e].
  - rewrite IH, (IH _ (_ :: _)). simpl. rewrite <- !app_assoc. reflexivity.
  - destruct (predict_from_audio w self audio) as [[[emotion confidence] probabilities]|e].
    + destruct (display_raises w emotion confidence probabilities (iteration + 1)).
      * simpl. rewrite <- !app_assoc. reflexivity.
      * rewrite IH, (IH _ (_ :: _)). simpl. rewrite <- !app_assoc. reflexivity.
    + simpl. rewrite <- !app_assoc. reflexivity.
  - reflexivity.
Qed.

(** One iteration on a recording, from an empty trace. *)
Lemma run_continuous_loop_cons (self : LiveEmotionDetector) (audio : np.array)
    (mic : list np.array) (iteration : Z) :
  run_continuous_loop w self (audio :: mic) iteration []
  = match too_quiet audio with
    | Err e => (self, [Recorded audio], Raised e)
    | Ok true =>
        (self,
         [Recorded audio; Printed quiet_warning_continuous]
           ++ (run_continuous_loop w self mic (iteration + 1) []).1.2,
         (run_continuous_loop w self mic (iteration + 1) []).2)
    | Ok false =>
        match predict_from_audio w self audio with
        | Err e => (self, [Recorded audio; Predict audio], Raised e)
        | Ok (emotion, confidence, probabilities) =>
            match display_raises w emotion confidence probabilities (iteration + 1) with
            | Some e =>
                (self,
                 [Recorded audio; Predict audio;
                  Display emotion confidence probabilities (iteration + 1)],
                 Raised e)
            | None =>
                (self,
                 [Recorded audio; Predict audio;
                  Display emotion confidence probabilities (iteration + 1);
                  Printed pause_notice; Sleep 2]
                   ++ (run_continuous_loop w self mic (iteration + 1) []).1.2,
                 (run_continuous_loop w self mic (iteration + 1) []).2)
            end
        end
    end.
Proof.
  simpl. destruct (too_quiet audio) as [[|]|e]; [| |reflexivity].
  - rewrite run_continuous_loop_acc. reflexivity.
  - destruct (predict_from_audio w self audio) as [[[emotion confidence] probabilities]|e];
      [|reflexivity].
    destruct (display_raises w emotion confidence probabilities (iteration + 1));
      [reflexivity|].
    rewrite run_continuous_loop_acc. reflexivity.
Qed.



(** The number displayed with a result is the position of its recording
    among all the recordings of the run, the silent ones included, and the
    recording at that position passed the silence check and was predicted. *)
Theorem displayed_iteration_is_position (self : LiveEmotionDetector)
    (mic : list np.array) (i : Z) :
  i ∈ displayed_iterations (run_continuous w self mic).1.2 ->
  1 <= i <= Z.of_nat (length mic) /\
  exists audio : np.array,
    mic !! Z.to_nat (i - 1) = Some audio /\
    too_quiet audio = Ok false /\
    exists r, predict_from_audio w self audio = Ok r.
Proof.
  unfold run_continuous. rewrite run_continuous_loop_acc. simpl.
  assert (forall iteration,
            i ∈ displayed_iterations (run_continuous_loop w self mic iteration []).1.2 ->
            iteration + 1 <= i <= iteration + Z.of_nat (length mic) /\
            exists audio : np.array,
              mic !! Z.to_nat (i - iteration - 1) = Some audio /\
              too_quiet audio = Ok false /\
              exists r, predict_from_audio w self audio = Ok r) as H.
  { induction mic as [|audio mic IH]; intros iteration Hin.
    - simpl in Hin. apply elem_of_nil in Hin. contradiction.
    - rewrite run_continuous_loop_cons in Hin.
      assert (i ∈ displayed_iterations
                    (run_continuous_loop w self mic (iteration + 1) []).1.2 ->
              iteration + 1 <= i <= iteration + Z.of_nat (length (audio :: mic)) /\
              exists audio0 : np.array,
                (audio :: mic) !! Z.to_nat (i - iteration - 1) = Some audio0 /\
                too_quiet audio0 = Ok false /\
                exists r, predict_from_audio w self audio0 = Ok r) as Hrest.
      { intros Hi. apply IH in Hi as (Hrange & a & Ha & Hq & Hr).
        split; [simpl length; lia|]. exists a. split; [|auto].
        replace (Z.to_nat (i - iteration - 1))
          with (S (Z.to_nat (i - (iteration + 1) - 1))) by lia.
        exact Ha. }
      destruct (too_quiet audio) as [[|]|e] eqn:Hq; simpl in Hin.
      + auto.
      + destruct (predict_from_audio w self audio)
          as [[[emotion confidence] probabilities]|e] eqn:Hp; simpl in Hin.
        * assert (i = iteration + 1 ->
                  iteration + 1 <= i <= iteration + Z.of_nat (length (audio :: mic)) /\
                  exists audio0 : np.array,
                    (audio :: mic) !! Z.to_nat (i - iteration - 1) = Some audio0 /\
                    too_quiet audio0 = Ok false /\
                    exists r, predict_from_audio w self audio0 = Ok r) as Hhere.
          { intros ->. split; [simpl length; lia|]. exists audio.
            replace (Z.to_nat (iteration + 1 - iteration - 1)) with 0%nat by lia.
            eauto. }
          destruct (display_raises w emotion confidence probabilities (iteration + 1));
            simpl in Hin; apply elem_of_cons in Hin as [->|Hin]; auto.
          apply elem_of_nil in Hin. contradiction.
        * apply elem_of_nil in Hin. contradiction.
      + apply elem_of_nil in Hin. contradiction. }
  intros Hin. apply H in Hin as (Hrange & a & Ha & Hrest).
  split; [lia|]. exists a. split; [|assumption].
  replace (i - 1) with (i - 0 - 1) by lia. exact Ha.
Qed.




(** An empty recording: [np.max] raises [ValueError], which neither mode
    catches; nothing is predicted and, in continuous mode, nothing more is
    recorded. *)
Theorem empty_recording_raises (self : LiveEmotionDetector) (mic : list np.array) :
  let e := Raise ValueError
             "zero-size array to reduction operation maximum which has no identity" in
  run_single w self ([] :: mic) = (self, [Sleep 3; Recorded []], Raised e) /\
  run_continuous w self ([] :: mic) = (self, [Sleep 3; Recorded []], Raised e).
Proof. split; reflexivity. Qed.

(** The buffer the features are computed from is always an initial part of
    the recording.  For a product of duration and rate that is not negative
    clipping twice is clipping once; for a negative product the slice counts
    from the end and drops that many of the last samples. *)
Theorem clip_audio_is_prefix (self : LiveEmotionDetector) (audio : np.array) :
  clip_audio self audio `prefix_of` audio /\
  (0 <= live_emotion_detector.duration self * sample_rate self ->
     clip_audio self (clip_audio self audio) = clip_audio self audio) /\
  (live_emotion_detector.duration self * sample_rate self < 0 ->
     clip_audio self audio
     = take (length audio
             - Z.to_nat (- (live_emotion_detector.duration self * sample_rate self)))
         audio).
Proof.
  unfold clip_audio, slice_to.
  set (n := live_emotion_detector.duration self * sample_rate self).
  split; [|split].
  - destruct (Z.gtb_spec (Z.of_nat (length audio)) n); [|reflexivity].
    destruct (n <? 0); apply prefix_take.
  - intros Hn. destruct (Z.ltb_spec n 0); [lia|].
    destruct (Z.gtb_spec (Z.of_nat (length audio)) n) as [Hlong|Hshort].
    + rewrite length_take.
      destruct (Z.gtb_spec (Z.of_nat (Z.to_nat n `min` length audio)) n); [lia|reflexivity].
    + destruct (Z.gtb_spec (Z.of_nat (length audio)) n); [lia|reflexivity].
  - intros Hn. destruct (Z.gtb_spec (Z.of_nat (length audio)) n); [|lia].
    destruct (Z.ltb_spec n 0); [|lia]. f_equal. lia.
Qed.

(** The live detector's [main] starts no recording unless the constructor
    succeeded and the choice typed is 1 or 2, and it returns in either case;
    in particular a constructor that raises does not make it exit with a
    status of its own. *)
Theorem live_main_records_on_request_only (choice : string) (mic : list np.array) :
  (exists e, live_emotion_detector.__init__ w
               "artifacts/svm_model.pkl" "artifacts/standard_scaler.pkl" 3 22050 = Err e) \/
  (choice <> "1"%string /\ choice <> "2"%string) ->
  recorded_buffers (live_emotion_detector.main w choice mic).1 = [] /\
  (live_emotion_detector.main w choice mic).2 = Returned.
Proof.
  unfold live_emotion_detector.main. intros [[e ->]|[H1 H2]]; [split; reflexivity|].
  destruct (live_emotion_detector.__init__ w _ _ 3 22050); [|split; reflexivity].
  destruct (String.eqb_spec choice "1"); [contradiction|].
  destruct (String.eqb_spec choice "2"); [contradiction|].
  destruct (String.eqb choice "3"); split; reflexivity.
Qed.

End LiveFurther.

(** ** The demo *)

Section Demo.
Import emotion_predictor demo_script.
Context (w : World).

(** With a path argument and the artifacts loaded, the demo exits with
    status 1 exactly when the path is neither a file nor a directory;
    otherwise it ends normally, with exit code 0, whether or not the
    predictions succeed: their errors are printed, not propagated. *)
Theorem demo_exit_status (program path : string) (rest stdin : list string)
    (predictor : EmotionPredictor) :
  emotion_predictor.__init__ w "artifacts/svm_model.pkl" "artifacts/standard_scaler.pkl"
  = Ok predictor ->
  (main w (program :: path :: rest) stdin).2
  = (if os_path_isfile w path || os_path_isdir w path then Finished else Exit 1) /\
  (exit_code (main w (program :: path :: rest) stdin).2 = Some 1
   <-> os_path_isfile w path = false /\ os_path_isdir w path = false) /\
  (os_path_isfile w path = true ->
   (main w (program :: path :: rest) stdin).1
   = Line "Models loaded successfully!" :: demo_single_file w predictor path).
Proof.
  intros Hinit. unfold main. rewrite Hinit. simpl.
  destruct (os_path_isfile w path); simpl.
  - split; [reflexivity|]. split; [|reflexivity]. split; [discriminate|].
    intros [H _]. discriminate.
  - destruct (os_path_isdir w path); simpl.
    + split; [reflexivity|]. split; [|discriminate]. split; [discriminate|].
      intros [_ H]. discriminate.
    + split; [reflexivity|]. split; [|discriminate]. split; auto.
Qed.

Lemma shown_files_demo_files (predictor : EmotionPredictor) (total : Z)
    (wav_files : list string) :
  forall idx : Z,
    shown_files (demo_files w predictor idx total wav_files)
    = omap (fun audio_file =>
              match predict w predictor audio_file with
              | Ok _ => Some (os_path_basename w audio_file)
              | Err _ => None
              end) wav_files.
Proof.
  induction wav_files as [|audio_file rest IH]; intros idx; [reflexivity|].
  simpl. unfold shown_files in *. rewrite omap_app, (IH (idx + 1)).
  unfold demo_single_file.
  destruct (predict w predictor audio_file) as [[[emotion confidence] probabilities]|e];
    [|reflexivity].
  destruct (print_prediction_result _ _ _ _ _).2; reflexivity.
Qed.

(** [demo_directory] predicts every file the glob returns once, in the
    glob's order: [print_prediction_result] is called for exactly the files
    whose prediction returned, and a file whose prediction or display raises
    costs the others nothing; an empty directory gives one line. *)
Theorem demo_directory_shows_each_file (predictor : EmotionPredictor) (directory : string) :
  shown_files (demo_directory w predictor directory)
  = omap (fun audio_file =>
            match predict w predictor audio_file with
            | Ok _ => Some (os_path_basename w audio_file)
            | Err _ => None
            end) (glob_wav w directory) /\
  (glob_wav w directory = [] ->
   demo_directory w predictor directory
   = [Line ("No .wav files found in " +:+ directory)]).
Proof.
  unfold demo_directory.
  destruct (glob_wav w directory) as [|audio_file rest] eqn:Hglob.
  - split; reflexivity.
  - split; [|discriminate].
    change (shown_files (Line _ :: ?l)) with (shown_files l).
    apply shown_files_demo_files.
Qed.




(** Without arguments the demo needs one line of input: at the end of the
    input the prompt's [EOFError] is not caught and the process dies of it;
    any answer but y or yes ends the demo normally. *)
Theorem demo_without_arguments (program : string) (predictor : EmotionPredictor) :
  emotion_predictor.__init__ w "artifacts/svm_model.pkl" "artifacts/standard_scaler.pkl"
  = Ok predictor ->
  (main w [program] []).2 = Uncaught (Raise EOFError "EOF when reading a line") /\
  (forall (response : string) (stdin : list string),
     member (lower response) ["y"; "yes"]%string = false ->
     (main w [program] (response :: stdin)).2 = Finished) /\
  (forall (response : string) (stdin : list string),
     member (lower response) ["y"; "yes"]%string = true ->
     (main w [program] (response :: stdin)).2 = (interactive_mode w predictor stdin).2).
Proof.
  intros Hinit. unfold main. rewrite Hinit. simpl.
  split; [reflexivity|]. split; intros response stdin ->; [reflexivity|].
  destruct (interactive_mode w predictor stdin). reflexivity.
Qed.

(** When both artifact paths exist, whatever [joblib.load] raises leaves the
    constructor unchanged, the model being loaded first, and a scaler object
    without [n_features_in_] makes it raise [AttributeError]; the demo then
    reports an unexpected error and exits with status 1. *)
Theorem construction_load_failures (model_path scaler_path : string) :
  os_path_exists w model_path = true ->
  os_path_exists w scaler_path = true ->
  (forall e : exn,
     joblib_load w model_path = Err e ->
     emotion_predictor.__init__ w model_path scaler_path = Err e) /\
  (forall (loaded_model : sklearn.Estimator) (e : exn),
     joblib_load w model_path = Ok loaded_model ->
     joblib_load w scaler_path = Err e ->
     emotion_predictor.__init__ w model_path scaler_path = Err e) /\
  (forall loaded_model loaded_scaler : sklearn.Estimator,
     joblib_load w model_path = Ok loaded_model ->
     joblib_load w scaler_path = Ok loaded_scaler ->
     sklearn.n_features_in_ loaded_scaler = None ->
     emotion_predictor.__init__ w model_path scaler_path
     = Err (Raise AttributeError "object has no attribute 'n_features_in_'") /\
     (model_path = "artifacts/svm_model.pkl"%string ->
      scaler_path = "artifacts/standard_scaler.pkl"%string ->
      forall argv stdin : list string,
        main w argv stdin
        = ([Line "Unexpected error: object has no attribute 'n_features_in_'"], Exit 1))).
Proof.
  intros Hm Hs. unfold emotion_predictor.__init__. rewrite Hm, Hs. simpl.
  split; [|split].
  - intros e ->. reflexivity.
  - intros m e -> ->. reflexivity.
  - intros m s Hlm Hls Hn. rewrite Hlm, Hls. simpl. rewrite Hn. split; [reflexivity|].
    intros -> -> argv stdin. unfold main, emotion_predictor.__init__.
    rewrite Hm, Hs. simpl. rewrite Hlm, Hls. simpl. rewrite Hn. reflexivity.
Qed.

End Demo.

(** ** The silence check *)

Section Silence.
Import live_emotion_detector.

Lemma SFltb_rank (f1 f2 : SpecFloat.spec_float) :
  SpecFloat.SFltb f1 f2 = true <->
  exists k1 k2, rank f1 = Some k1 /\ rank f2 = Some k2 /\ rank_lt k1 k2.
Proof.
  unfold SpecFloat.SFltb.
  destruct f1 as [s1|[|]| |[|] m1 e1], f2 as [s2|[|]| |[|] m2 e2]; simpl;
    try (split; [discriminate | intros (k1 & k2 & H1 & H2 & H); simplify_eq; simpl in H; lia]);
    try (split; [intros _; do 2 eexists; repeat split; simpl; lia | reflexivity]).
  - rewrite Pos.compare_cont_spec. simpl.
    destruct (Z.compare_spec e1 e2) as [->|He|He]; simpl.
    + destruct (Pos.compare_spec m1 m2) as [->|Hm|Hm]; simpl;
        (split; [try discriminate; intros _; do 2 eexists; repeat split; simpl; lia
                | try reflexivity;
                  intros (k1 & k2 & H1 & H2 & H); simplify_eq; simpl in H; lia]).
    + split; [discriminate|].
      intros (k1 & k2 & H1 & H2 & H); simplify_eq; simpl in H; lia.
    + split; [intros _; do 2 eexists; repeat split; simpl; lia | reflexivity].
  - rewrite Pos.compare_cont_spec. simpl.
    destruct (Z.compare_spec e1 e2) as [->|He|He]; simpl.
    + destruct (Pos.compare_spec m1 m2) as [->|Hm|Hm]; simpl;
        (split; [try discriminate; intros _; do 2 eexists; repeat split; simpl; lia
                | try reflexivity;
                  intros (k1 & k2 & H1 & H2 & H); simplify_eq; simpl in H; lia]).
    + split; [intros _; do 2 eexists; repeat split; simpl; lia | reflexivity].
    + split; [discriminate|].
      intros (k1 & k2 & H1 & H2 & H); simplify_eq; simpl in H; lia.
Qed.

Lemma is_nan_rank (x : float) : is_nan x = true <-> rank (Prim2SF x) = None.
Proof.
  unfold is_nan. rewrite FloatAxioms.eqb_spec. unfold SpecFloat.SFeqb.
  destruct (Prim2SF x) as [s|[|]| |[|] m e]; simpl;
    rewrite ?Z.compare_refl, ?Pos.compare_cont_refl; simpl; split; congruence.
Qed.

Lemma ltb_rank (x y : float) :
  (x <? y)%float = true <->
  exists k1 k2, rank (Prim2SF x) = Some k1 /\ rank (Prim2SF y) = Some k2 /\ rank_lt k1 k2.
Proof. rewrite FloatAxioms.ltb_spec. apply SFltb_rank. Qed.

Lemma not_ltb_rank (x y : float) (k1 k2 : Z * Z * Z) :
  rank (Prim2SF x) = Some k1 -> rank (Prim2SF y) = Some k2 ->
  (x <? y)%float = false -> ~ rank_lt k1 k2.
Proof.
  intros H1 H2 Hlt Hr. assert ((x <? y)%float = true) by (apply ltb_rank; eauto).
  congruence.
Qed.

Lemma abs_is_nan (x : float) : is_nan (abs x) = is_nan x.
Proof.
  apply eq_true_iff_eq. rewrite !is_nan_rank, FloatAxioms.abs_spec.
  destruct (Prim2SF x) as [s|[|]| |[|] m e]; simpl; split; congruence.
Qed.

(** Membership in a list written out. *)
Local Ltac in_list := rewrite ?elem_of_cons; tauto.

(** [np.maximum] returns one of its arguments. *)
Lemma maximum_cases (x y : float) : np.maximum x y = x \/ np.maximum x y = y.
Proof.
  unfold np.maximum. destruct (is_nan x), (is_nan y), (x <? y)%float; auto.
Qed.

Lemma maximum_no_nan (x y : float) :
  is_nan x = false -> is_nan y = false ->
  np.maximum x y = if (x <? y)%float then y else x.
Proof. intros Hx Hy. unfold np.maximum. rewrite Hx, Hy. reflexivity. Qed.

Lemma fold_maximum_elem (rest : np.array) :
  forall x : float, fold_left np.maximum rest x ∈ x :: rest.
Proof.
  induction rest as [|y rest IH]; intros x; simpl; [apply elem_of_cons; auto|].
  specialize (IH (np.maximum x y)). apply elem_of_cons in IH as [IH|IH].
  - rewrite IH. destruct (maximum_cases x y) as [-> | ->]; in_list.
  - in_list.
Qed.

(** A NaN among the values is what [np.max] returns. *)
Lemma fold_maximum_nan (rest : np.array) :
  forall x : float,
    (exists v, v ∈ x :: rest /\ is_nan v = true) ->
    is_nan (fold_left np.maximum rest x) = true.
Proof.
  induction rest as [|y rest IH]; intros x (v & Hin & Hv); simpl.
  - apply list_elem_of_singleton in Hin as ->. assumption.
  - apply IH. unfold np.maximum.
    destruct (is_nan x) eqn:Hx; [exists x; split; [in_list|assumption]|].
    destruct (is_nan y) eqn:Hy; [exists y; split; [in_list|assumption]|].
    exists v. split; [|assumption].
    apply elem_of_cons in Hin as [->|Hin]; [congruence|].
    apply elem_of_cons in Hin as [->|Hin]; [congruence|]. in_list.
Qed.

Lemma rank_of_number (x : float) :
  is_nan x = false -> exists k, rank (Prim2SF x) = Some k.
Proof.
  intros Hx. destruct (rank (Prim2SF x)) eqn:Hr; [eauto|].
  apply is_nan_rank in Hr. congruence.
Qed.

(** Without a NaN no value exceeds what [np.max] returns. *)
Lemma fold_maximum_bound (rest : np.array) :
  forall x : float,
    (forall v, v ∈ x :: rest -> is_nan v = false) ->
    forall v, v ∈ x :: rest -> (fold_left np.maximum rest x <? v)%float = false.
Proof.
  induction rest as [|y rest IH]; intros x Hnan v Hin; simpl.
  - apply list_elem_of_singleton in Hin as ->.
    destruct (x <? x)%float eqn:Hlt; [|reflexivity].
    apply ltb_rank in Hlt as ([[a1 b1] c1] & [[a2 b2] c2] & H1 & H2 & H).
    simplify_eq. simpl in H. lia.
  - assert (is_nan x = false) as Hx by (apply Hnan; in_list).
    assert (is_nan y = false) as Hy by (apply Hnan; in_list).
    pose proof (maximum_no_nan x y Hx Hy) as Hm.
    assert (forall u, u ∈ np.maximum x y :: rest -> is_nan u = false) as Hnan'.
    { intros u Hu. apply elem_of_cons in Hu as [->|Hu]; [|apply Hnan; in_list].
      destruct (maximum_cases x y) as [->| ->]; assumption. }
    assert (np.maximum x y ∈ np.maximum x y :: rest) as Hself by (apply elem_of_cons; auto).
    pose proof (IH _ Hnan' _ Hself) as Hmax.
    apply elem_of_cons in Hin as [->|Hin];
      [|apply elem_of_cons in Hin as [->|Hin];
        [|apply IH; [assumption|apply elem_of_cons; auto]]].
    + rewrite Hm in *.
      destruct (x <? y)%float eqn:Hxy; [|assumption].
      destruct (fold_left np.maximum rest y <? x)%float eqn:Hlt; [|reflexivity].
      apply ltb_rank in Hlt as ([[a1 b1] c1] & [[a2 b2] c2] & H1 & H2 & H).
      apply ltb_rank in Hxy as ([[a3 b3] c3] & [[a4 b4] c4] & H3 & H4 & H').
      pose proof (not_ltb_rank _ _ _ _ H1 H4 Hmax) as Hn.
      simplify_eq. simpl in *. lia.
    + rewrite Hm in *.
      destruct (x <? y)%float eqn:Hxy; [assumption|].
      destruct (fold_left np.maximum rest x <? y)%float eqn:Hlt; [|reflexivity].
      apply ltb_rank in Hlt as ([[a1 b1] c1] & [[a2 b2] c2] & H1 & H2 & H).
      destruct (rank_of_number x Hx) as [[[a3 b3] c3] H3].
      pose proof (not_ltb_rank _ _ _ _ H1 H3 Hmax) as Hn.
      pose proof (not_ltb_rank _ _ _ _ H3 H2 Hxy) as Hn'.
      simpl in *. lia.
Qed.

(** A recording is rejected as silent exactly when it is not empty and
    every sample's absolute value compares below the threshold; with a NaN
    sample it is never rejected. *)
Theorem too_quiet_iff_all_below (audio : np.array) :
  (too_quiet audio = Ok true <->
   audio <> [] /\
   forall sample, sample ∈ audio -> (abs sample <? silence_threshold)%float = true) /\
  (forall sample, sample ∈ audio -> is_nan sample = true -> too_quiet audio = Ok false).
Proof.
  unfold too_quiet, np.max, np.abs.
  destruct audio as [|x rest]; simpl.
  { split; [|intros s Hs; apply elem_of_nil in Hs; contradiction].
    split; [discriminate|]. intros [H _]. contradiction. }
  set (peak := fold_left np.maximum (map abs rest) (abs x)).
  assert (peak ∈ abs x :: map abs rest) as Hpeak by apply fold_maximum_elem.
  split; [split|].
  - intros [= Hlt]. split; [discriminate|]. intros sample Hin.
    assert (forall v, v ∈ abs x :: map abs rest -> is_nan v = false) as Hnan.
    { intros v Hv. destruct (is_nan v) eqn:Hn; [|reflexivity].
      assert (is_nan peak = true) as Hp by (apply fold_maximum_nan; eauto).
      apply is_nan_rank in Hp.
      apply ltb_rank in Hlt as (k1 & k2 & H1 & _). congruence. }
    assert (abs sample ∈ abs x :: map abs rest) as Hs.
    { change (abs x :: map abs rest) with (map abs (x :: rest)).
      apply list_elem_of_fmap_2. assumption. }
    pose proof (fold_maximum_bound _ _ Hnan _ Hs) as Hb. fold peak in Hb.
    apply ltb_rank in Hlt as ([[a1 b1] c1] & [[a2 b2] c2] & H1 & H2 & H).
    destruct (rank_of_number _ (Hnan _ Hs)) as [[[a3 b3] c3] H3].
    pose proof (not_ltb_rank _ _ _ _ H1 H3 Hb) as Hn.
    apply ltb_rank. exists (a3, b3, c3), (a2, b2, c2). simpl in *.
    repeat split; try assumption. lia.
  - intros [_ Hall]. f_equal.
    change (abs x :: map abs rest) with (map abs (x :: rest)) in Hpeak.
    apply list_elem_of_fmap in Hpeak as (sample & -> & Hin). apply Hall, Hin.
  - intros sample Hin Hn. f_equal.
    assert (is_nan peak = true) as Hp.
    { apply fold_maximum_nan. exists (abs sample). split.
      - change (abs x :: map abs rest) with (map abs (x :: rest)).
        apply list_elem_of_fmap_2. assumption.
      - rewrite abs_is_nan. assumption. }
    destruct (peak <? silence_threshold)%float eqn:Hlt; [|reflexivity].
    apply ltb_rank in Hlt as (k1 & k2 & H1 & _).
    apply is_nan_rank in Hp. congruence.
Qed.

End Silence.

(** ** The further properties on the concrete worlds *)

Lemma predict_batch_marks_failures_witness :
  is_failure (None, None, ∅) = true <->
  exists e, emotion_predictor.predict (Fixtures.world 82)
              (Fixtures.predictor_of Fixtures.classifier 82) "missing.wav" = Err e.
Proof.
  apply (proj1 (predict_batch_marks_failures (Fixtures.world 82)
                  (Fixtures.predictor_of Fixtures.classifier 82)
                  ["happy.wav"; "missing.wav"; "happy.wav"]%string) 1%nat).
  - reflexivity.
  - vm_compute. reflexivity.
Defined.



Lemma displayed_iteration_is_position_witness :
  displayed_iterations
    (live_emotion_detector.run_continuous (Fixtures.world 81) (Fixtures.detector_of 81)
       [Fixtures.quiet; Fixtures.loud]).1.2 = [2] /\
  exists audio : np.array,
    [Fixtures.quiet; Fixtures.loud] !! Z.to_nat (2 - 1) = Some audio /\
    live_emotion_detector.too_quiet audio = Ok false /\
    exists r, live_emotion_detector.predict_from_audio (Fixtures.world 81)
                (Fixtures.detector_of 81) audio = Ok r.
Proof.
  assert (displayed_iterations
            (live_emotion_detector.run_continuous (Fixtures.world 81)
               (Fixtures.detector_of 81) [Fixtures.quiet; Fixtures.loud]).1.2 = [2]) as H
    by (vm_compute; reflexivity).
  split; [exact H|].
  apply (displayed_iteration_is_position (Fixtures.world 81) (Fixtures.detector_of 81)
           [Fixtures.quiet; Fixtures.loud] 2).
  rewrite H. apply elem_of_cons. left. reflexivity.
Defined.

Lemma clip_audio_is_prefix_witness :
  live_emotion_detector.clip_audio Scenarios.negative_detector Fixtures.loud
  = [0.5%float] /\
  live_emotion_detector.clip_audio Fixtures.short_detector
    (live_emotion_detector.clip_audio Fixtures.short_detector Fixtures.loud)
  = live_emotion_detector.clip_audio Fixtures.short_detector Fixtures.loud.
Proof.
  split.
  - apply (proj2 (proj2 (clip_audio_is_prefix Scenarios.negative_detector Fixtures.loud))).
    vm_compute. reflexivity.
  - apply (proj1 (proj2 (clip_audio_is_prefix Fixtures.short_detector Fixtures.loud))).
    vm_compute. discriminate.
Defined.

Lemma live_main_records_on_request_only_witness :
  live_emotion_detector.main Fixtures.world_without_scaler "1" [Fixtures.loud]
  = ([live_emotion_detector.Printed
        "Error initializing detector: Scaler not found at artifacts/standard_scaler.pkl"],
     live_emotion_detector.Returned) /\
  recorded_buffers
    (live_emotion_detector.main Fixtures.world_without_scaler "1" [Fixtures.loud]).1 = [].
Proof.
  split; [vm_compute; reflexivity|].
  apply (live_main_records_on_request_only Fixtures.world_without_scaler "1"
           [Fixtures.loud]).
  left. eexists. vm_compute. reflexivity.
Defined.

Lemma demo_exit_status_witness :
  demo_script.main (Fixtures.world 82) ["demo_script.py"; "broken.wav"]%string []
  = ([demo_script.Line "Models loaded successfully!";
      demo_script.Line
        "Error processing broken.wav: Feature extraction failed: could not decode"],
     demo_script.Finished) /\
  (demo_script.main (Fixtures.world 82) ["demo_script.py"; "nowhere"]%string []).2
  = demo_script.Exit 1.
Proof.
  split; [vm_compute; reflexivity|].
  apply (demo_exit_status (Fixtures.world 82) "demo_script.py" "nowhere" [] []
           (Fixtures.predictor_of Fixtures.classifier 82)).
  reflexivity.
Defined.

Lemma demo_directory_shows_each_file_witness :
  shown_files
    (demo_script.demo_directory Scenarios.world_with_directory
       (Fixtures.predictor_of Fixtures.classifier 81) "clips")
  = ["happy.wav"%string] /\
  demo_script.demo_directory Scenarios.world_with_directory
    (Fixtures.predictor_of Fixtures.classifier 81) "empty"
  = [demo_script.Line "No .wav files found in empty"].
Proof.
  split.
  - rewrite (proj1 (demo_directory_shows_each_file Scenarios.world_with_directory
                      (Fixtures.predictor_of Fixtures.classifier 81) "clips")).
    vm_compute. reflexivity.
  - apply (proj2 (demo_directory_shows_each_file Scenarios.world_with_directory
                    (Fixtures.predictor_of Fixtures.classifier 81) "empty")).
    reflexivity.
Defined.


Lemma demo_without_arguments_witness :
  (demo_script.main (Fixtures.world 82) ["demo_script.py"%string] []).2
  = demo_script.Uncaught (Raise EOFError "EOF when reading a line") /\
  (demo_script.main (Fixtures.world 82) ["demo_script.py"%string] ["n"%string]).2
  = demo_script.Finished.
Proof.
  pose proof (demo_without_arguments (Fixtures.world 82) "demo_script.py"
                (Fixtures.predictor_of Fixtures.classifier 82) eq_refl) as (He & Hn & _).
  split; [exact He|]. apply Hn. reflexivity.
Defined.

Lemma construction_load_failures_witness :
  emotion_predictor.__init__ Scenarios.world_old_scaler
    "artifacts/svm_model.pkl" "artifacts/standard_scaler.pkl"
  = Err (Raise AttributeError "object has no attribute 'n_features_in_'") /\
  demo_script.main Scenarios.world_old_scaler ["demo_script.py"%string] []
  = ([demo_script.Line "Unexpected error: object has no attribute 'n_features_in_'"],
     demo_script.Exit 1).
Proof.
  pose proof (construction_load_failures Scenarios.world_old_scaler
                "artifacts/svm_model.pkl" "artifacts/standard_scaler.pkl"
                eq_refl eq_refl) as (_ & _ & H).
  destruct (H Fixtures.classifier Fixtures.classifier eq_refl eq_refl eq_refl)
    as (Hinit & Hmain).
  split; [exact Hinit|]. apply Hmain; reflexivity.
Defined.

Lemma too_quiet_iff_all_below_witness :
  live_emotion_detector.too_quiet Scenarios.with_nan = Ok false /\
  live_emotion_detector.too_quiet Fixtures.quiet = Ok true.
Proof.
  split.
  - apply (proj2 (too_quiet_iff_all_below Scenarios.with_nan) nan).
    + unfold Scenarios.with_nan. rewrite !elem_of_cons. tauto.
    + reflexivity.
  - apply (proj1 (too_quiet_iff_all_below Fixtures.quiet)).
    split; [discriminate|]. intros sample Hin. unfold Fixtures.quiet in Hin.
    rewrite !elem_of_cons, elem_of_nil in Hin.
    destruct Hin as [-> | [-> | [-> | []]]]; reflexivity.
Defined.

(** ** The display routines *)

(** The labels with an emoji of their own are exactly the eight labels of
    the RAVDESS table: no label a predictor can return is displayed with the
    fallback, and every other string is. *)
Theorem canonical_labels_have_emoji (label : string) :
  label ∈ canonical_labels <-> get_emotion_emoji label <> "❓"%string.
Proof.
  unfold get_emotion_emoji. split.
  - unfold canonical_labels. rewrite !elem_of_cons, elem_of_nil.
    intros H. destruct_or!; try contradiction; subst; vm_compute; discriminate.
  - destruct (emoji_map !! label) as [emoji|] eqn:Hl; simpl; [|contradiction].
    intros _. apply elem_of_list_to_map_2 in Hl.
    unfold canonical_labels. rewrite !elem_of_cons, elem_of_nil in Hl.
    rewrite !elem_of_cons. destruct_or!; simplify_eq; auto 12.
Qed.

(** A confidence of zero is displayed by the demo and not by the live
    detector: [display_result] tests the confidence for truth, so for 0.0 it
    writes what it writes without probabilities, the heading and the
    emotion only; [print_prediction_result] tests it against [None] and
    writes the confidence line. *)
Theorem zero_confidence_is_hidden_in_live_display
    (sorted_items : gmap string float -> list (string * float))
    (filename emotion : string) (c : float) (probabilities : gmap string float)
    (iteration : Z) :
  (c =? 0)%float = true ->
  display_result sorted_items emotion (Some c) probabilities iteration
  = ([Rule; Analysis iteration; Rule; Detected emotion; Rule], None) /\
  display_result sorted_items emotion (Some c) probabilities iteration
  = display_result sorted_items emotion None ∅ iteration /\
  Confidence c
    ∈ (print_prediction_result sorted_items filename emotion (Some c) probabilities).1.
Proof.
  intros Hc. unfold display_result, print_prediction_result, truthy. rewrite Hc. simpl.
  split; [reflexivity|]. split; [reflexivity|].
  destruct (top_entries false 1 (take 3 (sorted_items probabilities))) as [lines [e|]];
    simpl; rewrite !elem_of_cons; tauto.
Qed.

Lemma canonical_labels_have_emoji_witness :
  get_emotion_emoji "Happy" <> "❓"%string /\ get_emotion_emoji "happy" = "❓"%string.
Proof.
  split.
  - apply (proj1 (canonical_labels_have_emoji "Happy")).
    unfold canonical_labels. rewrite !elem_of_cons. tauto.
  - destruct (string_dec (get_emotion_emoji "happy") "❓") as [H|H]; [exact H|].
    apply (proj2 (canonical_labels_have_emoji "happy")) in H.
    unfold canonical_labels in H. rewrite !elem_of_cons, elem_of_nil in H.
    destruct_or!; discriminate || contradiction.
Defined.

Lemma zero_confidence_is_hidden_in_live_display_witness :
  display_result (fun d => map_to_list d) "Happy" (Some 0%float)
    Fixtures.loud_distribution 1
  = ([Rule; Analysis 1; Rule; Detected "Happy"; Rule], None) /\
  Confidence 0%float
    ∈ (print_prediction_result (fun d => map_to_list d) "happy.wav" "Happy"
         (Some 0%float) Fixtures.loud_distribution).1.
Proof.
  pose proof (zero_confidence_is_hidden_in_live_display (fun d => map_to_list d)
                "happy.wav" "Happy" 0%float Fixtures.loud_distribution 1 eq_refl)
    as (H1 & _ & H3).
  split; assumption.
Defined.

Lemma predict_returns_witness :
  emotion_predictor.predict (Fixtures.world_no_proba 82)
    (Fixtures.predictor_of Fixtures.classifier_no_proba 82) "happy.wav"
  = Ok ("Happy"%string, None, ∅) /\
  emotion_predictor.predict (Fixtures.world 82)
    (Fixtures.predictor_of Fixtures.classifier 82) "happy.wav"
  = Ok ("Happy"%string, Some 0.5%float,
        zip_distribution emotion_predictor.RAVDESS [3; 1; 5; 4]
          [0.5; 0.25; 0.125; 0.125]%float).
Proof.
  split.
  - apply (proj1 (predict_returns (Fixtures.world_no_proba 82)
                    (Fixtures.predictor_of Fixtures.classifier_no_proba 82) "happy.wav"
                    (Fixtures.loud_features ++ [0%float])
                    [Fixtures.loud_features ++ [0%float]]
                    (fun m => if forallb (fun row => Z.of_nat (length row) =? 82) m
                              then Ok m
                              else Err (Raise ValueError
                                          ("StandardScaler is expecting " +:+ str_int 82
                                             +:+ " features as input.")))
                    (fun _ => Ok [3]) [3] 3 "Happy"
                    ltac:(vm_compute; reflexivity) eq_refl ltac:(vm_compute; reflexivity)
                    eq_refl eq_refl eq_refl ltac:(vm_compute; reflexivity))).
    reflexivity.
  - apply (proj2 (predict_returns (Fixtures.world 82)
                    (Fixtures.predictor_of Fixtures.classifier 82) "happy.wav"
                    (Fixtures.loud_features ++ [0%float])
                    [Fixtures.loud_features ++ [0%float]]
                    (fun m => if forallb (fun row => Z.of_nat (length row) =? 82) m
                              then Ok m
                              else Err (Raise ValueError
                                          ("StandardScaler is expecting " +:+ str_int 82
                                             +:+ " features as input.")))
                    (fun _ => Ok [3]) [3] 3 "Happy"
                    ltac:(vm_compute; reflexivity) eq_refl ltac:(vm_compute; reflexivity)
                    eq_refl eq_refl eq_refl ltac:(vm_compute; reflexivity))
             (fun _ => Ok [[0.5; 0.25; 0.125; 0.125]%float])
             [[0.5; 0.25; 0.125; 0.125]%float] [0.5; 0.25; 0.125; 0.125]%float
             [3; 1; 5; 4] 0.5%float eq_refl eq_refl eq_refl eq_refl).
    + simpl. lia.
    + repeat (apply Forall_cons; split; [eexists; reflexivity|]). apply Forall_nil. exact I.
    + vm_compute. reflexivity.
Defined.
